(** * Document processor front end

    A shallow embedding of the Streamlit front end of the document
    processor: the transport client ([services/api_client.py]), the
    branch of [main] that decides how a stored result is shown
    ([app.py]) and the display helpers ([components/results_display.py]).

    Python values that come out of [response.json()] are modelled by the
    type [value]; a Python [dict] is an association list in insertion
    order, so that the order of [entity_groups.items()] is the order in
    which keys were first inserted.  Code that can raise returns a [res],
    a small error monad whose [Raise] carries the Python exception. *)

From Stdlib Require Import ZArith List String Ascii Bool Lia.
From Stdlib Require Import Floats.PrimFloat Floats.FloatOps Floats.SpecFloat.
From Stdlib Require Import DecimalString.
From Stdlib Require Import Permutation.
Import ListNotations.

#[local] Set Warnings "-inexact-float,-register-all".

Open Scope list_scope.
Open Scope string_scope.

(* ================================================================== *)
(** * Python values, exceptions and the operators the code uses       *)
(* ================================================================== *)

Module Py.

(** Exception classes met in the modelled code.  The first five are the
    classes of [requests.exceptions], [requests_RequestException] being
    their base; the others are Python built-ins. *)
Inductive exc_class : Type :=
| requests_RequestException
| requests_HTTPError
| requests_ConnectionError
| requests_Timeout
| requests_JSONDecodeError
| TypeError
| AttributeError
| ValueError.

Record exn : Type := mk_exn { exn_class : exc_class; exn_str : string }.

(** [issubclass(c, requests.exceptions.RequestException)] *)
Definition is_RequestException (c : exc_class) : bool :=
  match c with
  | requests_RequestException | requests_HTTPError
  | requests_ConnectionError | requests_Timeout
  | requests_JSONDecodeError => true
  | TypeError | AttributeError | ValueError => false
  end.

(** Result of running code that may raise. *)
Inductive res (A : Type) : Type :=
| Ok (a : A)
| Raise (e : exn).
Arguments Ok {A} a.
Arguments Raise {A} e.

Definition bind {A B : Type} (c : res A) (k : A -> res B) : res B :=
  match c with
  | Ok a => k a
  | Raise e => Raise e
  end.

Notation "x <- c ;; k" := (bind c (fun x => k))
  (at level 61, c at next level, right associativity).

(** Values produced by [json.loads]: [None], [bool], [int], [float],
    [str], [list] and [dict]. *)
Inductive value : Type :=
| VNone
| VBool (b : bool)
| VInt (z : Z)
| VFloat (f : float)
| VStr (s : string)
| VList (l : list value)
| VDict (d : list (string * value)).

Definition dict : Type := list (string * value).

(** [type(v).__name__], used in the text of [TypeError]s. *)
Definition type_name (v : value) : string :=
  match v with
  | VNone => "NoneType"
  | VBool _ => "bool"
  | VInt _ => "int"
  | VFloat _ => "float"
  | VStr _ => "str"
  | VList _ => "list"
  | VDict _ => "dict"
  end.

(** [d.get(key, default)] *)
Fixpoint dict_get (d : dict) (key : string) (default : value) : value :=
  match d with
  | [] => default
  | (k, v) :: rest => if String.eqb k key then v else dict_get rest key default
  end.

(** [key in d] *)
Definition dict_has (d : dict) (key : string) : bool :=
  existsb (fun kv => String.eqb (fst kv) key) d.

(** [bool(v)]: the truth value tested by [if v:] and by [v or w]. *)
Definition truthy (v : value) : bool :=
  match v with
  | VNone => false
  | VBool b => b
  | VInt z => negb (z =? 0)%Z
  | VFloat f => negb (PrimFloat.eqb f 0%float)
  | VStr s => negb (String.eqb s "")
  | VList l => match l with [] => false | _ :: _ => true end
  | VDict d => match d with [] => false | _ :: _ => true end
  end.

(** [v == s] for a string literal [s]: only an equal [str] is equal. *)
Definition eq_str (v : value) (s : string) : bool :=
  match v with
  | VStr t => String.eqb t s
  | _ => false
  end.

(** Exact comparison of a Python [int] with a [float], as CPython does
    it: the float is [(-1)^s * m * 2^e] and no rounding takes place.
    [None] when the float is a NaN (every ordered comparison is false). *)
Definition int_compare_float (z : Z) (c : float) : option comparison :=
  match Prim2SF c with
  | S754_nan => None
  | S754_zero _ => Some (z ?= 0)%Z
  | S754_infinity s => Some (if s then Gt else Lt)
  | S754_finite s m e =>
      let n := if s then Z.neg m else Z.pos m in
      Some (if (0 <=? e)%Z then (z ?= n * 2 ^ e)%Z
            else (z * 2 ^ (- e) ?= n)%Z)
  end.

Definition int_eq_float (z : Z) (c : float) : bool :=
  match int_compare_float z c with
  | Some Eq => true
  | _ => false
  end.

Definition int_gt_float (z : Z) (c : float) : bool :=
  match int_compare_float z c with
  | Some Gt => true
  | _ => false
  end.

(** [v == c] for a float literal [c].  [bool] is a subclass of [int];
    a value of any other type is unequal to a number. *)
Definition eq_float (v : value) (c : float) : bool :=
  match v with
  | VBool b => int_eq_float (if b then 1 else 0)%Z c
  | VInt z => int_eq_float z c
  | VFloat f => PrimFloat.eqb f c
  | _ => false
  end.

(** [v > c] for a float literal [c]; ordering a non-number against a
    float raises [TypeError]. *)
Definition gt_float (v : value) (c : float) : res bool :=
  match v with
  | VBool b => Ok (int_gt_float (if b then 1 else 0)%Z c)
  | VInt z => Ok (int_gt_float z c)
  | VFloat f => Ok (PrimFloat.ltb c f)
  | _ => Raise (mk_exn TypeError
                  ("'>' not supported between instances of '"
                     ++ type_name v ++ "' and 'float'"))
  end.

(** [needle in hay] for two strings: [needle] occurs as a contiguous
    substring of [hay] (case-sensitive). *)
Fixpoint str_contains (needle hay : string) : bool :=
  String.prefix needle hay
  || match hay with
     | EmptyString => false
     | String _ rest => str_contains needle rest
     end.

(** [needle in hay] for a string literal [needle]: substring test on a
    [str], membership on a [list], key membership on a [dict]; the other
    types are not iterable. *)
Definition contains (needle : string) (hay : value) : res bool :=
  match hay with
  | VStr s => Ok (str_contains needle s)
  | VList l => Ok (existsb (fun x => eq_str x needle) l)
  | VDict d => Ok (dict_has d needle)
  | _ => Raise (mk_exn TypeError
                  ("argument of type '" ++ type_name hay
                     ++ "' is not iterable"))
  end.

(** [c.lower()] and [s.lower()] on ASCII letters. *)
Definition lower_ascii (c : ascii) : ascii :=
  let n := nat_of_ascii c in
  if (65 <=? n)%nat && (n <=? 90)%nat then ascii_of_nat (n + 32) else c.

Fixpoint lower (s : string) : string :=
  match s with
  | EmptyString => EmptyString
  | String c rest => String (lower_ascii c) (lower rest)
  end.

(** [s.replace(a, b)] for single characters [a] and [b]. *)
Fixpoint replace_char (a b : ascii) (s : string) : string :=
  match s with
  | EmptyString => EmptyString
  | String c rest =>
      String (if Ascii.eqb c a then b else c) (replace_char a b rest)
  end.

(** [str(n)] for a natural number. *)
Definition str_of_nat (n : nat) : string :=
  NilEmpty.string_of_uint (Nat.to_uint n).

End Py.

(* ================================================================== *)
(** * services/api_client.py                                          *)
(* ================================================================== *)

Module ApiClient.
Import Py.

(** What the client uses of a [requests.Response]: whether
    [raise_for_status()] raises, what [json()] returns or raises, and the
    raw [content]. *)
Record Response : Type := mk_Response {
  raise_for_status : res unit;
  json : res value;
  content : string
}.

(** The [requests] module as the client sees it:
    [post(url, files={'file': (filename, file_bytes)}, timeout=...)] and
    [get(url, timeout=...)]. *)
Record Requests : Type := mk_Requests {
  post : string -> string * string -> Z -> res Response;
  get : string -> Z -> res Response
}.

Record t : Type := mk_ApiClient { base_url : string }.

(** [ApiClient()] with the default [base_url]. *)
Definition default : t := mk_ApiClient "http://localhost:8080".

(** [try: body except requests.exceptions.RequestException as e: handler] *)
Definition try_except_RequestException {A : Type}
    (body : res A) (handler : exn -> res A) : res A :=
  match body with
  | Ok a => Ok a
  | Raise e =>
      if is_RequestException (exn_class e) then handler e else Raise e
  end.

(** The dictionary returned by the handler of [upload_file]. *)
Definition upload_error (e : exn) : value :=
  VDict [("error", VBool true);
         ("message", VStr ("Upload failed: " ++ exn_str e));
         ("fileId", VNone)].

Definition upload_file (requests : Requests) (self : t)
    (file_bytes filename : string) : res value :=
  let url := base_url self ++ "/api/files/upload" in
  let files := (filename, file_bytes) in
  try_except_RequestException
    (response <- post requests url files 60 ;;
     _ <- raise_for_status response ;;
     json response)
    (fun e => Ok (upload_error e)).

(** The three places where the body of [upload_file]'s [try] can fail:
    the request itself (connection refused, timeout), the status check
    (an error status) and the decoding of the body (malformed body). *)
Inductive upload_fails (requests : Requests) (self : t)
    (file_bytes filename : string) : exn -> Prop :=
| post_raises e :
    post requests (base_url self ++ "/api/files/upload")
      (filename, file_bytes) 60 = Raise e ->
    upload_fails requests self file_bytes filename e
| status_raises response e :
    post requests (base_url self ++ "/api/files/upload")
      (filename, file_bytes) 60 = Ok response ->
    raise_for_status response = Raise e ->
    upload_fails requests self file_bytes filename e
| json_raises response e :
    post requests (base_url self ++ "/api/files/upload")
      (filename, file_bytes) 60 = Ok response ->
    raise_for_status response = Ok tt ->
    json response = Raise e ->
    upload_fails requests self file_bytes filename e.

Definition get_file_result (requests : Requests) (self : t)
    (file_id : string) : res value :=
  let url := base_url self ++ "/api/files/" ++ file_id in
  try_except_RequestException
    (response <- get requests url 30 ;;
     _ <- raise_for_status response ;;
     json response)
    (fun _ => Ok VNone).

Definition download_file (requests : Requests) (self : t)
    (file_id : string) : res (option string) :=
  let url := base_url self ++ "/api/files/" ++ file_id ++ "/download" in
  try_except_RequestException
    (response <- get requests url 30 ;;
     _ <- raise_for_status response ;;
     Ok (Some (content response)))
    (fun _ => Ok None).

(** The methods that [class ApiClient] defines. *)
Inductive method : Type :=
| m_upload_file
| m_get_file_result
| m_download_file.

(** Attribute lookup [api_client.<name>] for a method name: a name the
    class does not define raises [AttributeError]. *)
Definition getattr (name : string) : res method :=
  if String.eqb name "upload_file" then Ok m_upload_file
  else if String.eqb name "get_file_result" then Ok m_get_file_result
  else if String.eqb name "download_file" then Ok m_download_file
  else Raise (mk_exn AttributeError
                ("'ApiClient' object has no attribute '" ++ name ++ "'")).

(** Calling a bound method with no argument: each of the three methods
    has required positional parameters. *)
Definition call_no_args (m : method) : res value :=
  Raise (mk_exn TypeError
    match m with
    | m_upload_file =>
        "ApiClient.upload_file() missing 2 required positional arguments: 'file_bytes' and 'filename'"
    | m_get_file_result =>
        "ApiClient.get_file_result() missing 1 required positional argument: 'file_id'"
    | m_download_file =>
        "ApiClient.download_file() missing 1 required positional argument: 'file_id'"
    end).

End ApiClient.

(* ================================================================== *)
(** * components/results_display.py                                   *)
(* ================================================================== *)

Module ResultsDisplay.
Import Py.

(** ** [display_error]: which troubleshooting tips are shown *)

(** The five branches of the tips expander, in the order of the source:
    "API Configuration Issue", "AI Processing Issue", "Timeout Issue",
    "Service Busy" and "General troubleshooting". *)
Inductive kind : Type :=
| ApiConfiguration
| AiProcessing
| Timeout
| ServiceBusy
| Generic.

(** [a or b] where evaluating either side may raise: [b] is evaluated
    only when [a] is false. *)
Definition or_else (a b : res bool) : res bool :=
  x <- a ;; if x then Ok true else b.

Definition display_error (error_message : value) : res kind :=
  c1 <- contains "API configuration" error_message ;;
  if c1 then Ok ApiConfiguration else
  c2 <- or_else (contains "categorize" error_message)
                (contains "extract" error_message) ;;
  if c2 then Ok AiProcessing else
  c3 <- contains "timeout" error_message ;;
  if c3 then Ok Timeout else
  c4 <- or_else (contains "busy" error_message)
                (contains "wait" error_message) ;;
  if c4 then Ok ServiceBusy else
  Ok Generic.

(** ** [display_results]: grouping the entities by type *)

(** [entity.get('type', 'unknown')] *)
Definition entity_type (entity : dict) : value :=
  dict_get entity "type" (VStr "unknown").

(** A [list] or a [dict] cannot be a dictionary key. *)
Definition hashable (v : value) : bool :=
  match v with
  | VList _ | VDict _ => false
  | _ => true
  end.

(** Equality of two dictionary keys: strings by content, [None] with
    itself, and numbers ([bool], [int], [float]) by numeric value. *)
Definition key_eqb (a b : value) : bool :=
  match a, b with
  | VNone, VNone => true
  | VStr s, VStr t => String.eqb s t
  | VBool x, VBool y => Bool.eqb x y
  | VBool x, VInt z | VInt z, VBool x => ((if x then 1 else 0) =? z)%Z
  | VInt x, VInt y => (x =? y)%Z
  | VBool x, VFloat f | VFloat f, VBool x =>
      int_eq_float (if x then 1 else 0)%Z f
  | VInt z, VFloat f | VFloat f, VInt z => int_eq_float z f
  | VFloat f, VFloat g => PrimFloat.eqb f g
  | _, _ => false
  end.

(** [entity_groups]: entity type to the list of its entities, in the
    insertion order of the keys. *)
Definition groups : Type := list (value * list dict).

(** The body of the grouping loop once the key is known:
    [[
      if entity_type not in entity_groups:
          entity_groups[entity_type] = []
      entity_groups[entity_type].append(entity)
    ]]
    An absent key is inserted after all others with the entity as its
    only member; a present key gets the entity at the end of its list. *)
Fixpoint add_entity (entity_type : value) (entity : dict)
    (entity_groups : groups) : groups :=
  match entity_groups with
  | [] => [(entity_type, [entity])]
  | (k, members) :: rest =>
      if key_eqb k entity_type
      then (k, (members ++ [entity])%list) :: rest
      else (k, members) :: add_entity entity_type entity rest
  end.

(** [for entity in entities: ...], started from [entity_groups]. *)
Fixpoint group_loop (entities : list dict) (entity_groups : groups)
    : res groups :=
  match entities with
  | [] => Ok entity_groups
  | entity :: rest =>
      let ty := entity_type entity in
      if hashable ty
      then group_loop rest (add_entity ty entity entity_groups)
      else Raise (mk_exn TypeError
                    ("unhashable type: '" ++ type_name ty ++ "'"))
  end.

(** Lines 32 to 37: [entity_groups = {}] followed by the loop. *)
Definition group_entities (entities : list dict) : res groups :=
  group_loop entities [].

(** *** The grouping as the spec words it *)





(** ** [display_results]: the confidence marker of an entity *)

(** The three markers: green circle, yellow circle, red circle. *)
Inductive severity : Type :=
| high
| medium
| low.

(** Lines 43 and 44:
    [[
      confidence = entity.get('confidence', 0)
      confidence_color = G if confidence > 0.8 else Y if confidence > 0.5 else R
    ]] *)
Definition confidence_color (entity : dict) : res severity :=
  let confidence := dict_get entity "confidence" (VInt 0) in
  c1 <- gt_float confidence 0.8%float ;;
  if c1 then Ok high else
  c2 <- gt_float confidence 0.5%float ;;
  if c2 then Ok medium else Ok low.

(** ** [display_results]: the tables *)

Section Tables.

(** [pandas] is used through two operations, taken as parameters:
    [pd.DataFrame(rows, columns=headers)], which returns a frame or
    raises, and [df.to_csv(index=False)], read back as text. *)
Variable frame : Type.
Variable DataFrame : value -> value -> res frame.
Variable to_csv : frame -> string.

(** What is put on the page inside the expander of one table. *)
Inductive widget : Type :=
| st_dataframe (df : frame)
| st_download_button (label data file_name mime : string)
| st_error (body : string)
| st_write (body : string)
| st_json (body : value).

(** The download button of line 78:
    [[
      st.download_button(
          label=f"📥 Download {table_name} as CSV",
          data=csv_data,
          file_name=f"{table_name.lower().replace(' ', '_')}.csv",
          mime="text/csv")
    ]]
    [lower] exists on a [str] only: another [table_name] raises
    [AttributeError] while the arguments are evaluated. *)
Definition download_button (table_name : value) (csv_data : string)
    : res widget :=
  match table_name with
  | VStr s =>
      Ok (st_download_button
            ("📥 Download " ++ s ++ " as CSV")
            csv_data
            (replace_char " " "_" (lower s) ++ ".csv")
            "text/csv")
  | v => Raise (mk_exn AttributeError
                  ("'" ++ type_name v ++ "' object has no attribute 'lower'"))
  end.

(** The body of [for i, table in enumerate(tables)], lines 62 to 89,
    as the list of what it puts on the page inside the table's expander.
    The frame is shown before the download button is built, so a failure
    while building the button leaves the frame on the page; every
    failure inside the [try] is followed by the raw table. *)
Definition display_table (i : nat) (table : dict) : list widget :=
  let table_name :=
    dict_get table "table_name" (VStr ("Table " ++ str_of_nat (i + 1))) in
  let headers := dict_get table "headers" (VList []) in
  let rows := dict_get table "rows" (VList []) in
  if truthy headers && truthy rows then
    match DataFrame rows headers with
    | Ok df =>
        match download_button table_name (to_csv df) with
        | Ok button => [st_dataframe df; button]
        | Raise e =>
            [st_dataframe df;
             st_error ("Error displaying table: " ++ exn_str e);
             st_json (VDict table)]
        end
    | Raise e =>
        [st_error ("Error displaying table: " ++ exn_str e);
         st_json (VDict table)]
    end
  else
    [st_write "Empty table or invalid format"; st_json (VDict table)].

(** [for i, table in enumerate(tables)], from index [i]. *)
Fixpoint display_tables_from (i : nat) (tables : list dict)
    : list (list widget) :=
  match tables with
  | [] => []
  | table :: rest => display_table i table :: display_tables_from (S i) rest
  end.

Definition display_tables (tables : list dict) : list (list widget) :=
  display_tables_from 0 tables.

End Tables.

Arguments st_dataframe {frame} df.
Arguments st_download_button {frame} label data file_name mime.
Arguments st_error {frame} body.
Arguments st_write {frame} body.
Arguments st_json {frame} body.

End ResultsDisplay.

(* ================================================================== *)
(** * app.py                                                          *)
(* ================================================================== *)

Module App.
Import Py.

(** What [main] does with a stored result (lines 123 to 134): the error
    display with one of the five tips, the "still being processed" notice,
    or the results. *)
Inductive Classification : Type :=
| Success
| Pending
| KnownFailure (k : ResultsDisplay.kind).

Definition classify (result : dict) : res Classification :=
  if truthy (dict_get result "error" VNone) then
    k <- ResultsDisplay.display_error
           (dict_get result "message" (VStr "Unknown error occurred")) ;;
    Ok (KnownFailure k)
  else if eq_str (dict_get result "category" VNone) "processing" then
    Ok Pending
  else if eq_str (dict_get result "category" VNone) "other"
          && eq_float (dict_get result "confidenceScore" (VInt 0)) 0%float
  then
    k <- ResultsDisplay.display_error
           (VStr "Unable to categorize this document. The AI service may be having issues.") ;;
    Ok (KnownFailure k)
  else
    Ok Success.

(** Line 73, [files = api_client.list_files() or []]: the attribute
    lookup, the call without arguments, then the [or]. *)
Definition recent_files (api_client : ApiClient.t) : res value :=
  m <- ApiClient.getattr "list_files" ;;
  files <- ApiClient.call_no_args m ;;
  Ok (if truthy files then files else VList []).

End App.

(* ================================================================== *)
(** * The tabular structure and its CSV projection                    *)
(* ================================================================== *)

Module Pandas.
Import Py.

(** Modelled from the spec: the [pandas] operations behind
    [pd.DataFrame(rows, columns=headers)] and [df.to_csv(index=False)],
    and the CSV reader of the round-trip property, are not part of the
    repository.  The tabular structure is a header row and data rows of
    text cells; it is built when every row has as many cells as there are
    headers; its CSV text has the header row first, one record per line,
    cells separated by commas and quoted per standard CSV escaping (a
    cell holding a comma, a double quote or a line break is enclosed in
    double quotes, with every double quote inside it doubled). *)
Record frame : Type := mk_frame {
  columns : list string;
  data : list (list string)
}.

Definition comma : ascii := ","%char.
Definition dquote : ascii := "034"%char.
Definition LF : ascii := "010"%char.
Definition CR : ascii := "013"%char.

(** *** Building the frame from JSON values *)

Definition as_str (v : value) : option string :=
  match v with
  | VStr s => Some s
  | _ => None
  end.

Fixpoint all_some {A : Type} (l : list (option A)) : option (list A) :=
  match l with
  | [] => Some []
  | Some a :: rest => option_map (cons a) (all_some rest)
  | None :: _ => None
  end.

Definition as_str_list (v : value) : option (list string) :=
  match v with
  | VList l => all_some (map as_str l)
  | _ => None
  end.

Definition as_str_rows (v : value) : option (list (list string)) :=
  match v with
  | VList l => all_some (map as_str_list l)
  | _ => None
  end.

(** Every row has exactly one cell per header. *)
Definition rectangular (headers : list string) (rows : list (list string))
    : bool :=
  forallb (fun row => Nat.eqb (List.length row) (List.length headers)) rows.

(** Modelled from the spec: [pd.DataFrame(rows, columns=headers)], which
    is not part of the repository.  The frame is built when the headers
    and the cells are text and every row length equals the header count;
    anything else raises. *)
Definition DataFrame (rows columns : value) : res frame :=
  match as_str_list columns, as_str_rows rows with
  | Some headers, Some cells =>
      if rectangular headers cells then Ok (mk_frame headers cells)
      else Raise (mk_exn ValueError "row length differs from header count")
  | _, _ => Raise (mk_exn ValueError "not a table of text cells")
  end.

(** *** Writing CSV *)

Definition special (c : ascii) : bool :=
  Ascii.eqb c comma || Ascii.eqb c dquote || Ascii.eqb c LF || Ascii.eqb c CR.

Fixpoint needs_quoting (cell : string) : bool :=
  match cell with
  | EmptyString => false
  | String c rest => special c || needs_quoting rest
  end.

(** Every double quote is doubled. *)
Fixpoint escape (cell : string) : string :=
  match cell with
  | EmptyString => EmptyString
  | String c rest =>
      if Ascii.eqb c dquote then String dquote (String dquote (escape rest))
      else String c (escape rest)
  end.

Definition write_cell (cell : string) : string :=
  if needs_quoting cell
  then String dquote (escape cell ++ String dquote EmptyString)
  else cell.

(** The cells of one record, separated by commas. *)
Fixpoint write_cells (cells : list string) : string :=
  match cells with
  | [] => EmptyString
  | [cell] => write_cell cell
  | cell :: rest => write_cell cell ++ String comma (write_cells rest)
  end.

(** One record per line. *)
Fixpoint write_records (records : list (list string)) : string :=
  match records with
  | [] => EmptyString
  | r :: rest => write_cells r ++ String LF (write_records rest)
  end.

(** Modelled from the spec: [df.to_csv(index=False)], which is not part
    of the repository.  The header row comes first, then the data rows,
    every cell quoted per standard CSV escaping. *)
Definition to_csv (df : frame) : string :=
  write_records (columns df :: data df).

(** *** Reading CSV *)

(** Where the reader stands: at the start of a cell, inside an unquoted
    cell, inside a quoted cell, or just after a double quote met inside a
    quoted cell (the end of the cell, or the first half of a doubled
    quote). *)
Inductive mode : Type :=
| CellStart
| Unquoted
| Quoted
| QuoteSeen.

Definition snoc (s : string) (c : ascii) : string :=
  s ++ String c EmptyString.

Definition cons_record (r : list string)
    (rest : option (list (list string))) : option (list (list string)) :=
  option_map (cons r) rest.

(** [read_from m cell record input]: the records of [input], read in
    mode [m] with [cell] the text of the current cell so far and [record]
    the finished cells of the current record.  [None] on a quote inside
    an unquoted cell, on text after a closing quote, and on a quoted cell
    that is never closed. *)
Fixpoint read_from (m : mode) (cell : string) (record : list string)
    (input : string) : option (list (list string)) :=
  match input with
  | EmptyString =>
      match m with
      | CellStart =>
          match record with
          | [] => Some []
          | _ :: _ => Some [(record ++ [EmptyString])%list]
          end
      | Unquoted | QuoteSeen => Some [(record ++ [cell])%list]
      | Quoted => None
      end
  | String c rest =>
      match m with
      | CellStart =>
          if Ascii.eqb c dquote then read_from Quoted EmptyString record rest
          else if Ascii.eqb c comma
          then read_from CellStart EmptyString
                 (record ++ [EmptyString])%list rest
          else if Ascii.eqb c LF
          then cons_record (record ++ [EmptyString])%list
                 (read_from CellStart EmptyString [] rest)
          else read_from Unquoted (String c EmptyString) record rest
      | Unquoted =>
          if Ascii.eqb c dquote then None
          else if Ascii.eqb c comma
          then read_from CellStart EmptyString (record ++ [cell])%list rest
          else if Ascii.eqb c LF
          then cons_record (record ++ [cell])%list
                 (read_from CellStart EmptyString [] rest)
          else read_from Unquoted (snoc cell c) record rest
      | Quoted =>
          if Ascii.eqb c dquote then read_from QuoteSeen cell record rest
          else read_from Quoted (snoc cell c) record rest
      | QuoteSeen =>
          if Ascii.eqb c dquote
          then read_from Quoted (snoc cell dquote) record rest
          else if Ascii.eqb c comma
          then read_from CellStart EmptyString (record ++ [cell])%list rest
          else if Ascii.eqb c LF
          then cons_record (record ++ [cell])%list
                 (read_from CellStart EmptyString [] rest)
          else None
      end
  end.

Definition read_records (text : string) : option (list (list string)) :=
  read_from CellStart EmptyString [] text.

(** What the reader does once [cell] is complete and the separator
    [sep] (a comma or a line feed) is read: the cell joins the record,
    and after a line feed the record is finished. *)
Definition at_separator (sep : ascii) (cell : string) (record : list string)
    (rest : string) : option (list (list string)) :=
  if Ascii.eqb sep comma
  then read_from CellStart EmptyString (record ++ [cell])%list rest
  else cons_record (record ++ [cell])%list
         (read_from CellStart EmptyString [] rest).

(** Modelled from the spec: the re-parsing of the round-trip property,
    for which the repository has no reader.  The first record is the
    header row, the others are the data rows. *)
Definition read_csv (text : string) : option frame :=
  match read_records text with
  | Some (header :: rows) => Some (mk_frame header rows)
  | _ => None
  end.

(** *** Tables of the data model *)

(** A table of the data model, with text cells. *)
Record Table : Type := mk_Table {
  table_name : string;
  headers : list string;
  rows : list (list string)
}.

(** Non-empty headers, and every row as long as the header row. *)
Definition well_formed (t : Table) : Prop :=
  headers t <> [] /\
  Forall (fun row => List.length row = List.length (headers t)) (rows t).

(** The JSON object of a table, as the backend sends it. *)
Definition to_json (t : Table) : dict :=
  [("table_name", VStr (table_name t));
   ("headers", VList (map VStr (headers t)));
   ("rows", VList (map (fun row => VList (map VStr row)) (rows t)))].

End Pandas.

(* ================================================================== *)
(** * Concrete inputs used below                                      *)
(* ================================================================== *)

Module Scenarios.
Import Py.

(** A response whose category is "processing" and that carries a true
    error marker. *)
Definition processing_with_error : dict :=
  [("error", VBool true); ("category", VStr "processing")].

(** An error response whose message holds "extract" and "timeout". *)
Definition extract_timeout : dict :=
  [("error", VBool true);
   ("message", VStr "Failed to extract text: timeout")].

(** The transport of [test_upload_file_network_error]: [requests.post]
    raises [ConnectionError("Connection failed")]. *)
Definition failing_requests : ApiClient.Requests :=
  ApiClient.mk_Requests
    (fun _ _ _ => Raise (mk_exn requests_ConnectionError "Connection failed"))
    (fun _ _ => Raise (mk_exn requests_ConnectionError "Connection failed")).

(** The entity of the spec's scenario. *)
Definition amount_entity : dict :=
  [("type", VStr "amount"); ("value", VStr "$100");
   ("confidence", VFloat 0.9)].

(** Four entities of three types, the last one without a type. *)
Definition sample_entities : list dict :=
  [[("type", VStr "date"); ("value", VStr "2024-01-05")];
   [("type", VStr "amount"); ("value", VStr "$100")];
   [("type", VStr "date"); ("value", VStr "2024-02-01")];
   [("value", VStr "ACME")]].


(** The table of the spec's example: a second row shorter than the
    header row. *)
Definition short_row : Pandas.Table :=
  Pandas.mk_Table "Totals" ["A"; "B"] [["1"; "2"]; ["3"]].

(** A well-formed table whose cells hold commas, double quotes and a
    line break. *)
Definition quoted_cells : Pandas.Table :=
  Pandas.mk_Table "Line Items" ["item, unit"; "price"]
    [["bolt, M6"; "0.10"];
     [String Pandas.dquote ("big" ++ String Pandas.dquote " nut"); ""];
     [String "a" (String Pandas.LF "b"); "1,5"]].

End Scenarios.

(* ================================================================== *)
(** * services/api_client.py: where the two GET requests can fail      *)
(* ================================================================== *)

Module Fetch.
Import Py ApiClient.

(** The two places where [requests.get(url, timeout=30)] followed by
    [response.raise_for_status()] can fail. *)
Inductive get_fails (requests : Requests) (url : string) : exn -> Prop :=
| get_raises e :
    get requests url 30 = Raise e ->
    get_fails requests url e
| get_status_raises response e :
    get requests url 30 = Ok response ->
    raise_for_status response = Raise e ->
    get_fails requests url e.

(** The body of [get_file_result]'s [try] has a third place: the
    decoding of the body. *)
Inductive result_fails (requests : Requests) (url : string) : exn -> Prop :=
| result_get_fails e :
    get_fails requests url e ->
    result_fails requests url e
| result_json_raises response e :
    get requests url 30 = Ok response ->
    raise_for_status response = Ok tt ->
    json response = Raise e ->
    result_fails requests url e.

End Fetch.

(* ================================================================== *)
(** * app.py: what [main] does around the stored result               *)
(* ================================================================== *)

Module Session.
Import Py.

(** Lines 123 to 134 on whatever [st.session_state['last_result']]
    holds: [result.get] exists on a [dict] only. *)
Definition show (last_result : value) : res App.Classification :=
  match last_result with
  | VDict result => App.classify result
  | v => Raise (mk_exn AttributeError
                  ("'" ++ type_name v ++ "' object has no attribute 'get'"))
  end.

(** The dictionary stored when the selected file cannot be loaded. *)
Definition not_found : value :=
  VDict [("error", VBool true); ("message", VStr "Not found")].

(** Line 80:
    [[
      result = api_client.get_file_result(selected_id) or {"error": True, "message": "Not found"}
    ]] *)
Definition load_selected (requests : ApiClient.Requests)
    (api_client : ApiClient.t) (selected_id : string) : res value :=
  result <- ApiClient.get_file_result requests api_client selected_id ;;
  Ok (if truthy result then result else not_found).

(** What pressing "Download Original" leads to. *)
Inductive download_view : Type :=
| save_file (data : string) (file_name : value)
| download_failed.

(** Lines 142 to 151, for a result whose [fileId] is the text
    [file_id]:
    [[
      file_content = api_client.download_file(result['fileId'])
      if file_content:
          st.download_button(label=..., data=file_content,
                             file_name=result.get('filename', 'document'), ...)
      else:
          st.error("Failed to download file")
    ]]
    Empty [bytes] are falsy, like [None]. *)
Definition download_clicked (requests : ApiClient.Requests)
    (api_client : ApiClient.t) (file_id : string) (result : dict)
    : res download_view :=
  file_content <- ApiClient.download_file requests api_client file_id ;;
  match file_content with
  | Some (String c rest) =>
      Ok (save_file (String c rest)
            (dict_get result "filename" (VStr "document")))
  | Some EmptyString | None => Ok download_failed
  end.

End Session.

(* ================================================================== *)
(** * Kinds of values and of widgets                                  *)
(* ================================================================== *)

Module Kinds.
Import Py.

(** [bool], [int] and [float]: the values that can be ordered against
    a float. *)
Definition is_number (v : value) : bool :=
  match v with
  | VBool _ | VInt _ | VFloat _ => true
  | _ => false
  end.

(** [str], [list] and [dict]: the values on which [in] is defined. *)
Definition iterable (v : value) : bool :=
  match v with
  | VStr _ | VList _ | VDict _ => true
  | _ => false
  end.

Definition is_str (v : value) : bool :=
  match v with
  | VStr _ => true
  | _ => false
  end.

(** The widget is a download button. *)
Definition is_download_button {frame : Type}
    (w : ResultsDisplay.widget frame) : bool :=
  match w with
  | ResultsDisplay.st_download_button _ _ _ _ => true
  | _ => false
  end.

End Kinds.

(* ================================================================== *)
(** * More concrete inputs                                            *)
(* ================================================================== *)

Module MoreScenarios.
Import Py.

(** The transport of [test_get_file_result_not_found]: the request
    returns, and [raise_for_status] raises [HTTPError("404 Not Found")]. *)
Definition not_found_requests : ApiClient.Requests :=
  ApiClient.mk_Requests
    (fun _ _ _ => Raise (mk_exn requests_ConnectionError "no upload here"))
    (fun _ _ =>
       Ok (ApiClient.mk_Response
             (Raise (mk_exn requests_HTTPError "404 Not Found"))
             (Ok VNone) "")).

(** A transport whose [json()] raises a plain [ValueError]. *)
Definition value_error_requests : ApiClient.Requests :=
  ApiClient.mk_Requests
    (fun _ _ _ =>
       Ok (ApiClient.mk_Response (Ok tt)
             (Raise (mk_exn ValueError "Expecting value")) ""))
    (fun _ _ =>
       Ok (ApiClient.mk_Response (Ok tt)
             (Raise (mk_exn ValueError "Expecting value")) "")).

(** A transport whose upload request times out. *)
Definition timeout_requests : ApiClient.Requests :=
  ApiClient.mk_Requests
    (fun _ _ _ =>
       Raise (mk_exn requests_Timeout "Read timed out. (read timeout=60)"))
    (fun _ _ =>
       Raise (mk_exn requests_Timeout "Read timed out. (read timeout=30)")).

(** A transport that serves a file with the given content. *)
Definition serving (body : string) : ApiClient.Requests :=
  ApiClient.mk_Requests
    (fun _ _ _ => Ok (ApiClient.mk_Response (Ok tt) (Ok VNone) body))
    (fun _ _ => Ok (ApiClient.mk_Response (Ok tt) (Ok VNone) body)).

(** Entities whose types are a string, numbers and [None]. *)
Definition mixed_types : list dict :=
  [[("type", VStr "date"); ("value", VStr "a")];
   [("type", VInt 1); ("value", VStr "b")];
   [("type", VNone); ("value", VStr "c")];
   [("type", VFloat 1); ("value", VStr "d")];
   [("type", VStr "date"); ("value", VStr "e")]].

(** A table without a name. *)
Definition unnamed_table : dict :=
  [("headers", VList [VStr "A"]); ("rows", VList [VList [VStr "1"]])].

(** A table whose name is [null]. *)
Definition null_name_table : dict :=
  [("table_name", VNone);
   ("headers", VList [VStr "A"]); ("rows", VList [VList [VStr "1"]])].

End MoreScenarios.

(* ================================================================== *)
(** * Shapes of tables, of their display and of names                 *)
(* ================================================================== *)

Module Shapes.
Import Py.



(** Every character of the text is an ASCII character. *)
Fixpoint ascii_text (s : string) : bool :=
  match s with
  | EmptyString => true
  | String c rest => (nat_of_ascii c <? 128)%nat && ascii_text rest
  end.

End Shapes.

(* ================================================================== *)
(** * Properties                                                      *)
(* ================================================================== *)

(** ** Strings and dictionaries *)

Section StringFacts.
Import Py.

Lemma append_assoc (a b c : string) : (a ++ b) ++ c = a ++ (b ++ c).
Proof.
  induction a as [|x a IH]; simpl; [reflexivity | now rewrite IH].
Qed.

Lemma append_nil_r (a : string) : a ++ "" = a.
Proof.
  induction a as [|x a IH]; simpl; [reflexivity | now rewrite IH].
Qed.

Lemma prefix_append (p s : string) :
  String.prefix p s = true <-> exists rest, s = p ++ rest.
Proof.
  revert s; induction p as [|c p IH]; intros s.
  - split; [intros _; now exists s | intros _; now destruct s].
  - destruct s as [|d s]; simpl.
    + split; [discriminate | intros [rest H]; discriminate].
    + destruct (Ascii.ascii_dec c d) as [Heq|Hne].
      * subst d. rewrite IH. split; intros [rest H]; exists rest.
        -- now rewrite H.
        -- now injection H.
      * split; [discriminate | intros [rest H]; injection H; congruence].
Qed.

(** [needle in hay] holds exactly when [hay] is some text, then
    [needle], then some text. *)
Lemma str_contains_spec (needle hay : string) :
  str_contains needle hay = true
  <-> exists before after, hay = before ++ needle ++ after.
Proof.
  induction hay as [|c hay IH]; cbn [str_contains].
  - rewrite orb_false_r, prefix_append. split.
    + intros [rest H]; now exists "", rest.
    + intros [[|x before] [after H]]; [now exists after | discriminate].
  - rewrite orb_true_iff, prefix_append, IH. split.
    + intros [[rest H] | [before [after H]]].
      * now exists "", rest.
      * exists (String c before), after; simpl; now rewrite H.
    + intros [[|x before] [after H]].
      * left; now exists after.
      * right; exists before, after; simpl in H; now injection H.
Qed.

Lemma str_contains_suffix (before s : string) :
  str_contains s (before ++ s) = true.
Proof.
  apply str_contains_spec. exists before, "". now rewrite append_nil_r.
Qed.

Lemma dict_get_absent (d : dict) (key : string) (default : value) :
  dict_has d key = false -> dict_get d key default = default.
Proof.
  induction d as [|[k v] d IH]; simpl; [reflexivity|].
  destruct (String.eqb k key); simpl; [discriminate | exact IH].
Qed.

End StringFacts.

(** ** The classifier: [main], lines 123 to 134, with [display_error] *)

Section Classifier.
Import Py ResultsDisplay App Scenarios.

(** The text shown when a document comes back as "other" with no
    confidence selects the AI-processing tips. *)
Lemma display_error_unable_to_categorize :
  display_error
    (VStr "Unable to categorize this document. The AI service may be having issues.")
  = Ok AiProcessing.
Proof. reflexivity. Qed.

(** [display_error] on a text message: the first pattern found decides. *)
Lemma display_error_str (msg : string) :
  display_error (VStr msg) =
  Ok (if str_contains "API configuration" msg then ApiConfiguration
      else if str_contains "categorize" msg || str_contains "extract" msg
           then AiProcessing
      else if str_contains "timeout" msg then Timeout
      else if str_contains "busy" msg || str_contains "wait" msg
           then ServiceBusy
      else Generic).
Proof.
  unfold display_error, or_else, contains, bind.
  destruct (str_contains "API configuration" msg); [reflexivity|].
  destruct (str_contains "categorize" msg); [reflexivity|].
  destruct (str_contains "extract" msg); [reflexivity|].
  destruct (str_contains "timeout" msg); [reflexivity|].
  destruct (str_contains "busy" msg); [reflexivity|].
  destruct (str_contains "wait" msg); reflexivity.
Qed.

(** A result that is not an error and whose category is "other" with a
    confidence score equal to zero is shown as an AI-processing failure. *)
Lemma classify_other_zero (result : dict) :
  truthy (dict_get result "error" VNone) = false ->
  dict_get result "category" VNone = VStr "other" ->
  eq_float (dict_get result "confidenceScore" (VInt 0)) 0%float = true ->
  classify result = Ok (KnownFailure AiProcessing).
Proof.
  intros Herr Hcat Hscore. unfold classify.
  rewrite Herr, Hcat, Hscore. reflexivity.
Qed.

(** C1, as stated, fails: the error marker is tested before the
    category, so a response with category "processing" and a true error
    marker is shown as a failure, not as pending. *)
Lemma classify_processing_error_not_pending :
  dict_get processing_with_error "category" VNone = VStr "processing" /\
  classify processing_with_error = Ok (KnownFailure Generic) /\
  classify processing_with_error <> Ok Pending.
Proof. repeat split; discriminate. Qed.

(** C1, amended: for every response whose error marker is absent or
    falsy and whose category equals "processing", the classifier returns
    Pending, whatever the other fields hold. *)
Theorem classify_processing_pending (result : dict) :
  truthy (dict_get result "error" VNone) = false ->
  dict_get result "category" VNone = VStr "processing" ->
  classify result = Ok Pending.
Proof.
  intros Herr Hcat. unfold classify. rewrite Herr, Hcat. reflexivity.
Qed.

Lemma classify_processing_pending_witness :
  classify [("category", VStr "processing"); ("confidenceScore", VFloat 0);
            ("message", VStr "timeout")] = Ok Pending.
Proof. apply classify_processing_pending; reflexivity. Defined.

(** C2, as stated, fails: the patterns are tried in order and the first
    match wins, so a message that holds "extract" as well as "timeout"
    gets the AI-processing tips. *)
Lemma classify_timeout_shadowed :
  dict_get extract_timeout "error" VNone = VBool true /\
  str_contains "timeout" "Failed to extract text: timeout" = true /\
  classify extract_timeout = Ok (KnownFailure AiProcessing) /\
  classify extract_timeout <> Ok (KnownFailure Timeout).
Proof. repeat split; discriminate. Qed.

(** C2, amended: for every response with a true error marker whose
    message contains the exact substring "timeout" and none of the
    substrings tried before it ("API configuration", "categorize",
    "extract"), the classifier returns KnownFailure Timeout. *)
Theorem classify_error_timeout (result : dict) (msg : string) :
  truthy (dict_get result "error" VNone) = true ->
  dict_get result "message" (VStr "Unknown error occurred") = VStr msg ->
  str_contains "timeout" msg = true ->
  str_contains "API configuration" msg = false ->
  str_contains "categorize" msg = false ->
  str_contains "extract" msg = false ->
  classify result = Ok (KnownFailure Timeout).
Proof.
  intros Herr Hmsg Ht Ha Hc He. unfold classify.
  rewrite Herr, Hmsg, display_error_str, Ha, Hc, He, Ht. reflexivity.
Qed.

Lemma classify_error_timeout_witness :
  classify [("error", VBool true);
            ("message", VStr "Upload failed: Read timed out. (read timeout=60)");
            ("fileId", VNone)]
  = Ok (KnownFailure Timeout).
Proof.
  apply (classify_error_timeout _
           "Upload failed: Read timed out. (read timeout=60)");
    reflexivity.
Defined.

(** C3: for every response with no error marker (absent or falsy),
    category equal to "other" and a confidenceScore field equal to 0.0,
    the classifier returns KnownFailure AiProcessing, not Success. *)
Theorem classify_other_zero_confidence (result : dict) (score : value) :
  truthy (dict_get result "error" VNone) = false ->
  dict_get result "category" VNone = VStr "other" ->
  dict_has result "confidenceScore" = true ->
  dict_get result "confidenceScore" (VInt 0) = score ->
  eq_float score 0%float = true ->
  classify result = Ok (KnownFailure AiProcessing)
  /\ classify result <> Ok Success.
Proof.
  intros Herr Hcat _ Hget Hscore.
  assert (H : classify result = Ok (KnownFailure AiProcessing)).
  { apply classify_other_zero; [assumption | assumption |].
    now rewrite Hget. }
  split; [exact H | rewrite H; discriminate].
Qed.

Lemma classify_other_zero_confidence_witness :
  classify [("fileId", VStr "f1"); ("category", VStr "other");
            ("confidenceScore", VFloat 0)]
  = Ok (KnownFailure AiProcessing)
  /\ classify [("fileId", VStr "f1"); ("category", VStr "other");
               ("confidenceScore", VFloat 0)]
     <> Ok Success.
Proof.
  apply (classify_other_zero_confidence _ (VFloat 0)); reflexivity.
Defined.

(** C10: when a response has no error marker, category equal to
    "other" and no confidenceScore field at all, the missing confidence is
    read as 0, which equals 0.0, and the classifier returns
    KnownFailure AiProcessing, not Success. *)
Theorem classify_other_missing_confidence (result : dict) :
  truthy (dict_get result "error" VNone) = false ->
  dict_get result "category" VNone = VStr "other" ->
  dict_has result "confidenceScore" = false ->
  dict_get result "confidenceScore" (VInt 0) = VInt 0
  /\ classify result = Ok (KnownFailure AiProcessing)
  /\ classify result <> Ok Success.
Proof.
  intros Herr Hcat Habs.
  pose proof (dict_get_absent result "confidenceScore" (VInt 0) Habs) as Hget.
  assert (H : classify result = Ok (KnownFailure AiProcessing)).
  { apply classify_other_zero; [assumption | assumption |].
    rewrite Hget. reflexivity. }
  repeat split; [exact Hget | exact H | rewrite H; discriminate].
Qed.

Lemma classify_other_missing_confidence_witness :
  dict_get [("fileId", VStr "f1"); ("category", VStr "other")]
    "confidenceScore" (VInt 0) = VInt 0
  /\ classify [("fileId", VStr "f1"); ("category", VStr "other")]
     = Ok (KnownFailure AiProcessing)
  /\ classify [("fileId", VStr "f1"); ("category", VStr "other")]
     <> Ok Success.
Proof.
  apply classify_other_missing_confidence; reflexivity.
Defined.

End Classifier.

(** ** The confidence marker of an entity *)

Section Severity.
Import Py ResultsDisplay Scenarios.

(** The two thresholds as exact binary fractions: the literal [0.8] is
    7205759403792794 / 2^53 and the literal [0.5] is 2^52 / 2^53. *)
Lemma threshold_0_8 :
  Prim2SF 0.8%float = S754_finite false 7205759403792794 (-53).
Proof. reflexivity. Qed.

Lemma threshold_0_5 :
  Prim2SF 0.5%float = S754_finite false 4503599627370496 (-53).
Proof. reflexivity. Qed.

(** An integer confidence is above both thresholds from 1 on, and above
    neither up to 0. *)
Lemma int_gt_thresholds (z : Z) :
  int_gt_float z 0.8%float = (1 <=? z)%Z /\
  int_gt_float z 0.5%float = (1 <=? z)%Z.
Proof.
  unfold int_gt_float, int_compare_float.
  rewrite threshold_0_8, threshold_0_5. cbn [Z.leb Z.compare Z.opp].
  change (0 <=? -53)%Z with false. cbv iota.
  change (2 ^ 53)%Z with 9007199254740992%Z.
  split.
  - destruct (Z.compare_spec (z * 9007199254740992) 7205759403792794);
      destruct (Z.leb_spec 1 z); try reflexivity; lia.
  - destruct (Z.compare_spec (z * 9007199254740992) 4503599627370496);
      destruct (Z.leb_spec 1 z); try reflexivity; lia.
Qed.

(** A numeric confidence never makes the marker fail. *)
Lemma confidence_color_total (entity : dict) :
  match dict_get entity "confidence" (VInt 0) with
  | VBool _ | VInt _ | VFloat _ => exists s, confidence_color entity = Ok s
  | _ => exists e, confidence_color entity = Raise e
  end.
Proof.
  unfold confidence_color.
  destruct (dict_get entity "confidence" (VInt 0)); simpl;
    try (eexists; reflexivity);
    repeat match goal with
           | |- context [if ?b then _ else _] => destruct b
           end; eexists; reflexivity.
Qed.

(** C8: for every entity, the severity tier follows the number held
    as its confidence.  With a float confidence [c] the tier is high if
    0.8 < c, medium if 0.5 < c and not 0.8 < c, and low otherwise, the
    comparisons being those of binary64 floats, strict; with an integer
    confidence it is high from 1 on and low up to 0. *)
Theorem confidence_color_tiers (entity : dict) :
  (forall c : float,
     dict_get entity "confidence" (VInt 0) = VFloat c ->
     (PrimFloat.ltb 0.8%float c = true ->
      confidence_color entity = Ok high) /\
     (PrimFloat.ltb 0.8%float c = false ->
      PrimFloat.ltb 0.5%float c = true ->
      confidence_color entity = Ok medium) /\
     (PrimFloat.ltb 0.8%float c = false ->
      PrimFloat.ltb 0.5%float c = false ->
      confidence_color entity = Ok low)) /\
  (forall z : Z,
     dict_get entity "confidence" (VInt 0) = VInt z ->
     ((1 <= z)%Z -> confidence_color entity = Ok high) /\
     ((z <= 0)%Z -> confidence_color entity = Ok low)).
Proof.
  split.
  - intros c Hc. unfold confidence_color. rewrite Hc. cbn [gt_float bind].
    repeat split.
    + intros H8. now rewrite H8.
    + intros H8 H5. now rewrite H8, H5.
    + intros H8 H5. now rewrite H8, H5.
  - intros z Hz. unfold confidence_color. rewrite Hz. cbn [gt_float bind].
    destruct (int_gt_thresholds z) as [H8 H5]. rewrite H8, H5.
    split; intros Hle.
    + apply Z.leb_le in Hle. now rewrite Hle.
    + destruct (Z.leb_spec 1 z); [lia | reflexivity].
Qed.

(** The entity of the spec's scenario, with confidence 0.9, is high;
    exactly 0.8 is medium, exactly 0.5 and 0.1 are low, the integer 1 is
    high. *)
Lemma confidence_color_tiers_witness :
  confidence_color amount_entity = Ok high /\
  confidence_color [("confidence", VFloat 0.8)] = Ok medium /\
  confidence_color [("confidence", VFloat 0.5)] = Ok low /\
  confidence_color [("confidence", VFloat 0.1)] = Ok low /\
  confidence_color [("confidence", VInt 1)] = Ok high.
Proof.
  split; [|split; [|split; [|split]]].
  - apply (proj1 (proj1 (confidence_color_tiers amount_entity)
                    0.9%float eq_refl)). reflexivity.
  - apply (proj1 (proj2 (proj1 (confidence_color_tiers
                                  [("confidence", VFloat 0.8)])
                           0.8%float eq_refl))); reflexivity.
  - apply (proj2 (proj2 (proj1 (confidence_color_tiers
                                  [("confidence", VFloat 0.5)])
                           0.5%float eq_refl))); reflexivity.
  - apply (proj2 (proj2 (proj1 (confidence_color_tiers
                                  [("confidence", VFloat 0.1)])
                           0.1%float eq_refl))); reflexivity.
  - apply (proj1 (proj2 (confidence_color_tiers [("confidence", VInt 1)])
                    1%Z eq_refl)). lia.
Defined.

(** The boundaries are strict, and a missing confidence counts as 0. *)
Example confidence_color_boundaries :
  confidence_color [("confidence", VFloat 0.8)] = Ok medium /\
  confidence_color [("confidence", VFloat 0.5)] = Ok low /\
  confidence_color [("confidence", VFloat 0.51)] = Ok medium /\
  confidence_color [("confidence", VInt 1)] = Ok high /\
  confidence_color [("value", VStr "n/a")] = Ok low.
Proof. repeat split. Qed.

End Severity.

(** ** The transport client *)

Section Transport.
Import Py ApiClient.

Variable requests : Requests.
Variable self : ApiClient.t.
Variables file_bytes filename : string.

Lemma upload_file_handles (e : exn) :
  upload_fails requests self file_bytes filename e ->
  is_RequestException (exn_class e) = true ->
  upload_file requests self file_bytes filename = Ok (upload_error e).
Proof.
  intros Hfail Hreq. unfold upload_file.
  destruct Hfail as [e H | response e H1 H2 | response e H1 H2 H3].
  - rewrite H. simpl. now rewrite Hreq.
  - rewrite H1. simpl. rewrite H2. simpl. now rewrite Hreq.
  - rewrite H1. simpl. rewrite H2. simpl. rewrite H3. simpl. now rewrite Hreq.
Qed.

(** An exception that is not a [RequestException] is not handled. *)
Lemma upload_file_propagates (e : exn) :
  upload_fails requests self file_bytes filename e ->
  is_RequestException (exn_class e) = false ->
  upload_file requests self file_bytes filename = Raise e.
Proof.
  intros Hfail Hreq. unfold upload_file.
  destruct Hfail as [e H | response e H1 H2 | response e H1 H2 H3].
  - rewrite H. simpl. now rewrite Hreq.
  - rewrite H1. simpl. rewrite H2. simpl. now rewrite Hreq.
  - rewrite H1. simpl. rewrite H2. simpl. rewrite H3. simpl. now rewrite Hreq.
Qed.

(** C6: for every transport-level failure during upload (connection
    error, timeout, error status, malformed body), [upload_file] does not
    raise: it returns an object with error true, a message that contains
    the text of the underlying exception, and fileId None. *)
Theorem upload_file_transport_failure (e : exn) :
  upload_fails requests self file_bytes filename e ->
  In (exn_class e)
     [requests_ConnectionError; requests_Timeout; requests_HTTPError;
      requests_JSONDecodeError] ->
  exists result message,
    upload_file requests self file_bytes filename = Ok (VDict result) /\
    dict_get result "error" VNone = VBool true /\
    dict_get result "message" VNone = VStr message /\
    str_contains (exn_str e) message = true /\
    dict_has result "fileId" = true /\
    dict_get result "fileId" (VStr "absent") = VNone.
Proof.
  intros Hfail Hclass.
  exists [("error", VBool true);
          ("message", VStr ("Upload failed: " ++ exn_str e));
          ("fileId", VNone)],
         ("Upload failed: " ++ exn_str e).
  split.
  - apply upload_file_handles; [exact Hfail|].
    simpl in Hclass.
    destruct Hclass as [H|[H|[H|[H|[]]]]]; rewrite <- H; reflexivity.
  - repeat split. apply str_contains_suffix.
Qed.

End Transport.

Section TransportScenario.
Import Py ApiClient Scenarios.

Lemma upload_file_transport_failure_witness :
  exists result message,
    upload_file failing_requests ApiClient.default "test content" "test.txt"
    = Ok (VDict result) /\
    dict_get result "error" VNone = VBool true /\
    dict_get result "message" VNone = VStr message /\
    str_contains "Connection failed" message = true /\
    dict_has result "fileId" = true /\
    dict_get result "fileId" (VStr "absent") = VNone.
Proof.
  apply (upload_file_transport_failure failing_requests ApiClient.default
           "test content" "test.txt"
           (mk_exn requests_ConnectionError "Connection failed")).
  - apply post_raises. reflexivity.
  - simpl. left. reflexivity.
Defined.

(** [main] asks the client for [list_files], which [class ApiClient]
    does not define: the lookup raises, for every client. *)
Lemma getattr_list_files :
  ApiClient.getattr "list_files"
  = Raise (mk_exn AttributeError
             "'ApiClient' object has no attribute 'list_files'").
Proof. reflexivity. Qed.

(** C7, on the code: the listing of line 73 raises [AttributeError]
    for every client, where the claim has a list, or an empty list on
    failure. *)
Theorem recent_files_raises (api_client : ApiClient.t) :
  App.recent_files api_client
  = Raise (mk_exn AttributeError
             "'ApiClient' object has no attribute 'list_files'").
Proof. reflexivity. Qed.

End TransportScenario.

(** ** Grouping the entities by type *)

Section Grouping.
Import Py ResultsDisplay Scenarios.



















(** The groups of the sample: "date" first with its two entities in
    order, then "amount", then "unknown" for the entity without a type. *)
Example group_entities_sample :
  group_entities sample_entities =
  Ok [(VStr "date",
       [[("type", VStr "date"); ("value", VStr "2024-01-05")];
        [("type", VStr "date"); ("value", VStr "2024-02-01")]]);
      (VStr "amount", [[("type", VStr "amount"); ("value", VStr "$100")]]);
      (VStr "unknown", [[("value", VStr "ACME")]])].
Proof. reflexivity. Qed.

(** A type that cannot be a dictionary key stops the loop. *)
Example group_entities_unhashable :
  group_entities [[("type", VList [VStr "date"])]]
  = Raise (mk_exn TypeError "unhashable type: 'list'").
Proof. reflexivity. Qed.

End Grouping.

(** ** CSV: writing, then reading back *)

Section CsvRoundTrip.
Import Py Pandas Scenarios.

Lemma special_false (c : ascii) :
  special c = false ->
  Ascii.eqb c dquote = false /\ Ascii.eqb c comma = false
  /\ Ascii.eqb c LF = false.
Proof.
  unfold special. intros H.
  repeat (apply orb_false_iff in H; destruct H as [H ?]). auto.
Qed.

Lemma snoc_append (acc : string) (c : ascii) (s : string) :
  snoc acc c ++ s = acc ++ String c s.
Proof. unfold snoc. now rewrite append_assoc. Qed.

(** An unquoted cell is read up to the separator that follows it. *)
Lemma read_unquoted (cell acc : string) (record : list string)
    (sep : ascii) (rest : string) :
  needs_quoting cell = false ->
  sep = comma \/ sep = LF ->
  read_from Unquoted acc record (cell ++ String sep rest)
  = at_separator sep (acc ++ cell) record rest.
Proof.
  revert acc. induction cell as [|c cell IH]; intros acc Hq Hsep.
  - rewrite append_nil_r. destruct Hsep; subst sep; reflexivity.
  - cbn [needs_quoting] in Hq. apply orb_false_iff in Hq.
    destruct Hq as [Hc Hq]. apply special_false in Hc.
    destruct Hc as [Hd [Hc Hl]].
    cbn [append read_from]. rewrite Hd, Hc, Hl.
    rewrite IH by assumption. now rewrite snoc_append.
Qed.

(** A quoted cell is read up to the separator after its closing quote,
    every doubled quote giving one quote. *)
Lemma read_quoted (cell acc : string) (record : list string)
    (sep : ascii) (rest : string) :
  sep = comma \/ sep = LF ->
  read_from Quoted acc record
    (escape cell ++ String dquote (String sep rest))
  = at_separator sep (acc ++ cell) record rest.
Proof.
  intros Hsep. revert acc. induction cell as [|c cell IH]; intros acc.
  - rewrite append_nil_r. destruct Hsep; subst sep; reflexivity.
  - cbn [escape]. destruct (Ascii.eqb c dquote) eqn:E.
    + apply Ascii.eqb_eq in E. subst c.
      cbn [append read_from]. change (Ascii.eqb dquote dquote) with true.
      cbv iota. rewrite IH. now rewrite snoc_append.
    + cbn [append read_from]. rewrite E, IH. now rewrite snoc_append.
Qed.

(** A written cell is read back as the cell. *)
Lemma read_cell (cell : string) (record : list string)
    (sep : ascii) (rest : string) :
  sep = comma \/ sep = LF ->
  read_from CellStart EmptyString record (write_cell cell ++ String sep rest)
  = at_separator sep cell record rest.
Proof.
  intros Hsep. unfold write_cell. destruct (needs_quoting cell) eqn:Hq.
  - cbn [append]. rewrite append_assoc. cbn [append read_from].
    change (Ascii.eqb dquote dquote) with true. cbv iota.
    now rewrite read_quoted.
  - destruct cell as [|c cell].
    + destruct Hsep; subst sep; reflexivity.
    + cbn [needs_quoting] in Hq. apply orb_false_iff in Hq.
      destruct Hq as [Hc Hq]. apply special_false in Hc.
      destruct Hc as [Hd [Hc Hl]].
      cbn [append read_from]. rewrite Hd, Hc, Hl.
      now rewrite read_unquoted.
Qed.

(** A written record with at least one cell is read back as the
    record, after the cells already read. *)
Lemma read_cells (cells record : list string) (rest : string) :
  cells <> [] ->
  read_from CellStart EmptyString record (write_cells cells ++ String LF rest)
  = cons_record (record ++ cells)%list
      (read_from CellStart EmptyString [] rest).
Proof.
  revert record. induction cells as [|cell cells IH]; intros record Hne.
  - contradiction.
  - destruct cells as [|cell' cells].
    + cbn [write_cells]. rewrite read_cell by now right. reflexivity.
    + change (write_cells (cell :: cell' :: cells))
        with (write_cell cell ++ String comma (write_cells (cell' :: cells))).
      rewrite append_assoc. cbn [append].
      rewrite read_cell by now left.
      unfold at_separator. change (Ascii.eqb comma comma) with true.
      cbv iota. rewrite IH by discriminate.
      now rewrite <- app_assoc.
Qed.

(** Records with at least one cell each are read back as written. *)
Lemma read_write_records (records : list (list string)) :
  Forall (fun r => r <> []) records ->
  read_records (write_records records) = Some records.
Proof.
  unfold read_records.
  induction 1 as [|r records Hr _ IH]; [reflexivity|].
  cbn [write_records]. rewrite read_cells by exact Hr.
  rewrite IH. reflexivity.
Qed.

End CsvRoundTrip.

Section CsvProjection.
Import Py Pandas Scenarios.

Lemma all_some_map_some {A B : Type} (f : A -> option B) (g : B -> A)
    (l : list B) :
  (forall b, f (g b) = Some b) -> all_some (map f (map g l)) = Some l.
Proof.
  intros Hfg. induction l as [|b l IH]; [reflexivity|].
  cbn [map all_some]. rewrite Hfg, IH. reflexivity.
Qed.

Lemma as_str_list_of_strings (l : list string) :
  as_str_list (VList (map VStr l)) = Some l.
Proof. apply all_some_map_some. reflexivity. Qed.

Lemma as_str_rows_of_rows (rows : list (list string)) :
  as_str_rows (VList (map (fun row => VList (map VStr row)) rows)) = Some rows.
Proof.
  unfold as_str_rows.
  apply (all_some_map_some as_str_list (fun row => VList (map VStr row))).
  apply as_str_list_of_strings.
Qed.

Lemma rectangular_spec (headers : list string) (rows : list (list string)) :
  rectangular headers rows = true
  <-> Forall (fun row => List.length row = List.length headers) rows.
Proof.
  unfold rectangular. rewrite forallb_forall, Forall_forall.
  split; intros H row Hin; apply Nat.eqb_eq, H, Hin.
Qed.

(** The frame of a well-formed table holds its headers and its rows. *)
Lemma DataFrame_well_formed (t : Table) :
  well_formed t ->
  DataFrame (dict_get (to_json t) "rows" (VList []))
            (dict_get (to_json t) "headers" (VList []))
  = Ok (mk_frame (headers t) (rows t)).
Proof.
  intros [_ Hrows].
  change (dict_get (to_json t) "rows" (VList []))
    with (VList (map (fun row => VList (map VStr row)) (rows t))).
  change (dict_get (to_json t) "headers" (VList []))
    with (VList (map VStr (headers t))).
  unfold DataFrame. rewrite as_str_list_of_strings, as_str_rows_of_rows.
  apply rectangular_spec in Hrows. now rewrite Hrows.
Qed.

(** C9: for every well-formed table (non-empty headers, every row as
    long as the header row), the tabular structure holds the headers and
    the rows, and reading back its CSV projection yields the original
    header row and the original rows, whatever commas, quotes or line
    breaks the cells hold. *)
Theorem csv_round_trip (t : Table) :
  well_formed t ->
  exists df text,
    DataFrame (dict_get (to_json t) "rows" (VList []))
              (dict_get (to_json t) "headers" (VList [])) = Ok df /\
    to_csv df = text /\
    read_csv text = Some (mk_frame (headers t) (rows t)).
Proof.
  intros Hwf. exists (mk_frame (headers t) (rows t)).
  eexists. split; [now apply DataFrame_well_formed|].
  split; [reflexivity|].
  destruct Hwf as [Hne Hrows].
  unfold read_csv, to_csv. cbn [columns data].
  rewrite read_write_records; [reflexivity|].
  constructor; [exact Hne|].
  eapply Forall_impl; [|exact Hrows].
  intros row Hlen Hnil. subst row. destruct (headers t); [now apply Hne|].
  discriminate.
Qed.

Lemma csv_round_trip_witness :
  exists df text,
    DataFrame (dict_get (to_json quoted_cells) "rows" (VList []))
              (dict_get (to_json quoted_cells) "headers" (VList [])) = Ok df /\
    to_csv df = text /\
    read_csv text
    = Some (mk_frame (headers quoted_cells) (rows quoted_cells)).
Proof.
  apply (csv_round_trip quoted_cells).
  split; [discriminate | repeat constructor].
Defined.

(** The CSV text of the sample: the header with a comma is quoted, the
    cell with quotes has them doubled, the empty cell is left empty. *)
Example to_csv_quoted_cells :
  to_csv (mk_frame (headers quoted_cells) (rows quoted_cells)) =
  String dquote ("item, unit" ++ String dquote (",price" ++ String LF
  (String dquote ("bolt, M6" ++ String dquote (",0.10" ++ String LF
  (String dquote (String dquote (String dquote ("big"
     ++ String dquote (String dquote (" nut" ++ String dquote ("," ++ String LF
  (String dquote ("a" ++ String LF ("b" ++ String dquote ("," ++ String dquote
     ("1,5" ++ String dquote (String LF "")))))))))))))))))).
Proof. reflexivity. Qed.

(** A record without any cell is not read back: the hypothesis on the
    headers is needed. *)
Example read_empty_record :
  read_records (write_records [[]]) = Some [[""]].
Proof. reflexivity. Qed.

End CsvProjection.

(** ** The tables of [display_results] *)

Section TableDisplay.
Import Py ResultsDisplay Shapes.

Variable frame : Type.
Variable DataFrame : value -> value -> res frame.
Variable to_csv : frame -> string.

(** The three outcomes of a table, for any constructor: when headers
    and rows are both non-empty and the frame constructor accepts them,
    the row-oriented frame is produced (first on the page); when headers
    or rows is empty, or the constructor raises, the table is marked
    ("Empty table or invalid format", or the error) and its raw structure
    is passed through unchanged. *)
Theorem display_table_cases (i : nat) (table : dict) :
  (truthy (dict_get table "headers" (VList [])) = true ->
   truthy (dict_get table "rows" (VList [])) = true ->
   forall df,
     DataFrame (dict_get table "rows" (VList []))
               (dict_get table "headers" (VList [])) = Ok df ->
     hd_error (display_table frame DataFrame to_csv i table) = Some (st_dataframe df)) /\
  (truthy (dict_get table "headers" (VList [])) = true ->
   truthy (dict_get table "rows" (VList [])) = true ->
   forall e,
     DataFrame (dict_get table "rows" (VList []))
               (dict_get table "headers" (VList [])) = Raise e ->
     display_table frame DataFrame to_csv i table
     = [st_error ("Error displaying table: " ++ exn_str e);
        st_json (VDict table)]) /\
  (truthy (dict_get table "headers" (VList [])) = false
   \/ truthy (dict_get table "rows" (VList [])) = false ->
   display_table frame DataFrame to_csv i table
   = [st_write "Empty table or invalid format"; st_json (VDict table)]).
Proof.
  unfold ResultsDisplay.display_table. repeat split.
  - intros Hh Hr df Hdf. rewrite Hh, Hr, Hdf. cbn [andb].
    destruct (download_button _ _ _); reflexivity.
  - intros Hh Hr e He. rewrite Hh, Hr, He. reflexivity.
  - intros [H | H]; rewrite H; [|rewrite andb_false_r]; reflexivity.
Qed.


(** No table is dropped: whatever the table, either a frame is shown or
    the raw table is. *)
Lemma display_table_not_dropped (i : nat) (table : dict) :
  (exists df, In (st_dataframe df) (display_table frame DataFrame to_csv i table))
  \/ In (st_json (VDict table)) (display_table frame DataFrame to_csv i table).
Proof.
  unfold ResultsDisplay.display_table.
  destruct (truthy _ && truthy _); [|right; simpl; tauto].
  destruct (DataFrame _ _) as [df|e]; [|right; simpl; tauto].
  left. exists df. destruct (download_button _ _ _); simpl; tauto.
Qed.

(** One list of widgets per table, in order. *)
Lemma display_tables_length (tables : list dict) :
  List.length (display_tables frame DataFrame to_csv tables)
  = List.length tables.
Proof.
  unfold display_tables. generalize 0%nat.
  induction tables as [|t tables IH]; intros n; simpl;
    [reflexivity | now rewrite IH].
Qed.

End TableDisplay.

Section TableScenarios.
Import Py ResultsDisplay Scenarios Shapes.



(** With a constructor that rejects rows shorter than the header row,
    the table of the spec's example is marked and passed through. *)
Lemma display_table_cases_witness :
  display_table Pandas.frame Pandas.DataFrame Pandas.to_csv 0 (Pandas.to_json short_row)
  = [st_error "Error displaying table: row length differs from header count";
     st_json (VDict (Pandas.to_json short_row))].
Proof.
  apply (proj1 (proj2 (display_table_cases Pandas.frame Pandas.DataFrame
                         Pandas.to_csv 0 (Pandas.to_json short_row)))
           eq_refl eq_refl
           (mk_exn ValueError "row length differs from header count")).
  reflexivity.
Defined.


(** A well-formed table with rows and a text name: the frame, then the
    download button with the CSV text and the derived file name. *)
Example display_table_quoted_cells :
  display_table Pandas.frame Pandas.DataFrame Pandas.to_csv 0 (Pandas.to_json quoted_cells)
  = [st_dataframe (Pandas.mk_frame (Pandas.headers quoted_cells)
                                   (Pandas.rows quoted_cells));
     st_download_button
       "📥 Download Line Items as CSV"
       (Pandas.to_csv (Pandas.mk_frame (Pandas.headers quoted_cells)
                                       (Pandas.rows quoted_cells)))
       "line_items.csv" "text/csv"].
Proof. reflexivity. Qed.

(** A table whose name is not text: the frame is shown, then building
    the download button fails and the raw table follows. *)
Example display_table_null_name :
  display_table Pandas.frame Pandas.DataFrame Pandas.to_csv 0 [("table_name", VNone);
                   ("headers", VList [VStr "A"]);
                   ("rows", VList [VList [VStr "1"]])]
  = [st_dataframe (Pandas.mk_frame ["A"] [["1"]]);
     st_error "Error displaying table: 'NoneType' object has no attribute 'lower'";
     st_json (VDict [("table_name", VNone);
                     ("headers", VList [VStr "A"]);
                     ("rows", VList [VList [VStr "1"]])])].
Proof. reflexivity. Qed.

End TableScenarios.

(** ** The two GET operations of the client *)

Section FetchFacts.
Import Py ApiClient Fetch MoreScenarios.

Variable requests : Requests.
Variable self : ApiClient.t.
Variable file_id : string.

(** [get_file_result] turns every [RequestException], raised by the
    request, by the status check or by the decoding of the body, into
    [None]: it neither raises nor returns an error object. *)
Theorem get_file_result_failure_none (e : exn) :
  result_fails requests (base_url self ++ "/api/files/" ++ file_id) e ->
  is_RequestException (exn_class e) = true ->
  get_file_result requests self file_id = Ok VNone.
Proof.
  intros Hfail Hreq. unfold get_file_result.
  destruct Hfail as [e' [e'' H | response e'' H1 H2] | response e' H1 H2 H3].
  - rewrite H. simpl. now rewrite Hreq.
  - rewrite H1. simpl. rewrite H2. simpl. now rewrite Hreq.
  - rewrite H1. simpl. rewrite H2. simpl. rewrite H3. simpl. now rewrite Hreq.
Qed.

(** [download_file] turns every [RequestException], raised by the
    request or by the status check, into [None]. *)
Theorem download_file_failure_none (e : exn) :
  get_fails requests
    (base_url self ++ "/api/files/" ++ file_id ++ "/download") e ->
  is_RequestException (exn_class e) = true ->
  download_file requests self file_id = Ok None.
Proof.
  intros Hfail Hreq. unfold download_file.
  destruct Hfail as [e H | response e H1 H2].
  - rewrite H. simpl. now rewrite Hreq.
  - rewrite H1. simpl. rewrite H2. simpl. now rewrite Hreq.
Qed.

(** The content is returned as it is when the request and the status
    check succeed, and nothing else makes [download_file] return content. *)
Theorem download_file_content (data : string) :
  download_file requests self file_id = Ok (Some data)
  <-> exists response,
        get requests
          (base_url self ++ "/api/files/" ++ file_id ++ "/download") 30
        = Ok response /\
        raise_for_status response = Ok tt /\
        content response = data.
Proof.
  unfold download_file, try_except_RequestException, bind.
  destruct (get requests _ 30) as [response|e] eqn:Hget.
  - destruct (raise_for_status response) as [[]|e'] eqn:Hst.
    + split.
      * intros H. injection H as H. exists response. auto.
      * intros [r [Hr [_ Hc]]]. injection Hr as <-. now rewrite Hc.
    + split.
      * destruct (is_RequestException (exn_class e')); discriminate.
      * intros [r [Hr [Hs _]]]. injection Hr as <-. congruence.
  - split.
    + destruct (is_RequestException (exn_class e)); discriminate.
    + intros [r [Hr _]]. discriminate.
Qed.

End FetchFacts.

Section FetchScenarios.
Import Py ApiClient Fetch MoreScenarios.

Lemma get_file_result_failure_none_witness :
  get_file_result not_found_requests ApiClient.default "non-existent-id"
  = Ok VNone.
Proof.
  apply (get_file_result_failure_none not_found_requests ApiClient.default
           "non-existent-id" (mk_exn requests_HTTPError "404 Not Found")).
  - apply result_get_fails.
    apply (get_status_raises _ _
             (mk_Response (Raise (mk_exn requests_HTTPError "404 Not Found"))
                (Ok VNone) "")); reflexivity.
  - reflexivity.
Defined.

Lemma download_file_failure_none_witness :
  download_file not_found_requests ApiClient.default "non-existent-id"
  = Ok None.
Proof.
  apply (download_file_failure_none not_found_requests ApiClient.default
           "non-existent-id" (mk_exn requests_HTTPError "404 Not Found")).
  - apply (get_status_raises _ _
             (mk_Response (Raise (mk_exn requests_HTTPError "404 Not Found"))
                (Ok VNone) "")); reflexivity.
  - reflexivity.
Defined.

(** A decoder that raises a plain [ValueError] is not caught by
    [upload_file]. *)
Lemma upload_file_propagates_witness :
  upload_file value_error_requests ApiClient.default "test content"
    "test.txt"
  = Raise (mk_exn ValueError "Expecting value").
Proof.
  apply upload_file_propagates.
  - apply (json_raises _ _ _ _
             (mk_Response (Ok tt)
                (Raise (mk_exn ValueError "Expecting value")) ""));
      reflexivity.
  - reflexivity.
Defined.

End FetchScenarios.

(** ** The stored result, from the transport to the display *)

Section SessionFacts.
Import Py ApiClient ResultsDisplay App Session Kinds MoreScenarios.

(** The prefix that [upload_file] puts before the text of the
    exception holds none of the patterns and starts none of them: the tips
    are those of the exception text alone. *)
Lemma display_error_upload_prefix (text : string) :
  display_error (VStr ("Upload failed: " ++ text))
  = display_error (VStr text).
Proof.
  rewrite !display_error_str.
  assert (H : forall p,
             In p ["API configuration"; "categorize"; "extract"; "timeout";
                   "busy"; "wait"] ->
             str_contains p ("Upload failed: " ++ text)
             = str_contains p text).
  { intros p Hp. simpl in Hp.
    destruct Hp as [<-|[<-|[<-|[<-|[<-|[<-|[]]]]]]]; reflexivity. }
  rewrite !H by (simpl; tauto). reflexivity.
Qed.

(** Whenever [upload_file] handles a transport failure, what it returns
    is shown as a failure, never as pending or as results, and with the
    tips that the text of the exception selects. *)
Theorem upload_failure_shown_as_error (requests : Requests) (self : ApiClient.t)
    (file_bytes filename : string) (e : exn) :
  upload_fails requests self file_bytes filename e ->
  is_RequestException (exn_class e) = true ->
  exists k,
    display_error (VStr (exn_str e)) = Ok k /\
    (result <- upload_file requests self file_bytes filename ;; show result)
    = Ok (KnownFailure k).
Proof.
  intros Hfail Hreq.
  rewrite (upload_file_handles requests self file_bytes filename e Hfail Hreq).
  cbn [bind show upload_error]. unfold classify.
  change (dict_get _ "error" VNone) with (VBool true).
  change (dict_get _ "message" (VStr "Unknown error occurred"))
    with (VStr ("Upload failed: " ++ exn_str e)).
  cbn [truthy]. rewrite display_error_upload_prefix.
  rewrite display_error_str. eexists. split; reflexivity.
Qed.

Lemma upload_failure_shown_as_error_witness :
  exists k,
    display_error (VStr "Read timed out. (read timeout=60)") = Ok k /\
    (result <- upload_file timeout_requests ApiClient.default "%PDF" "a.pdf" ;;
     show result)
    = Ok (KnownFailure k).
Proof.
  apply (upload_failure_shown_as_error timeout_requests ApiClient.default
           "%PDF" "a.pdf"
           (mk_exn requests_Timeout "Read timed out. (read timeout=60)")).
  - apply post_raises. reflexivity.
  - reflexivity.
Defined.

(** For a result with a truthy error marker, showing it (lines 123 to
    125 with [display_error]) raises exactly when the message is a value
    on which [in] is not defined ([None], a [bool] or a number), and what
    it raises is a [TypeError]; with a text, a list or an object as
    message it is shown as a failure with one of the five tips. *)
Theorem error_result_raises_iff (result : dict) :
  truthy (dict_get result "error" VNone) = true ->
  ((exists e, classify result = Raise e)
   <-> iterable (dict_get result "message" (VStr "Unknown error occurred"))
       = false) /\
  (forall e, classify result = Raise e -> exn_class e = TypeError) /\
  (iterable (dict_get result "message" (VStr "Unknown error occurred"))
   = true ->
   exists k, classify result = Ok (KnownFailure k)).
Proof.
  intros Herr. unfold classify. rewrite Herr.
  destruct (dict_get result "message" (VStr "Unknown error occurred"))
    as [| b | z | f | s | l | d]; cbn [iterable].
  1-4: split; [split; [reflexivity | intros _; eexists; reflexivity]|];
       split; [intros e H; injection H as <-; reflexivity | discriminate].
  - rewrite display_error_str. cbn [bind].
    split; [split; [intros [e H]; discriminate | discriminate]|].
    split; [discriminate | intros _; eexists; reflexivity].
  - unfold display_error, or_else, contains, bind.
    repeat match goal with
           | |- context [if ?b then _ else _] => destruct b
           end;
      (split; [split; [intros [e H]; discriminate | discriminate]|];
       split; [discriminate | intros _; eexists; reflexivity]).
  - unfold display_error, or_else, contains, bind.
    repeat match goal with
           | |- context [if ?b then _ else _] => destruct b
           end;
      (split; [split; [intros [e H]; discriminate | discriminate]|];
       split; [discriminate | intros _; eexists; reflexivity]).
Qed.

Lemma error_result_raises_iff_witness :
  ((exists e, classify [("error", VBool true); ("message", VNone)] = Raise e)
   <-> iterable (dict_get [("error", VBool true); ("message", VNone)]
                   "message" (VStr "Unknown error occurred"))
       = false) /\
  (forall e, classify [("error", VBool true); ("message", VNone)] = Raise e ->
             exn_class e = TypeError) /\
  (iterable (dict_get [("error", VBool true); ("message", VNone)]
               "message" (VStr "Unknown error occurred"))
   = true ->
   exists k, classify [("error", VBool true); ("message", VNone)]
             = Ok (KnownFailure k)).
Proof.
  apply (error_result_raises_iff [("error", VBool true); ("message", VNone)]).
  reflexivity.
Defined.

(** An error response whose message is [null]. *)
Example classify_null_message :
  classify [("error", VBool true); ("message", VNone)]
  = Raise (mk_exn TypeError "argument of type 'NoneType' is not iterable").
Proof. reflexivity. Qed.

(** When the selected file cannot be fetched, the "Not found" error is
    stored instead, and it is shown with the general tips. *)
Theorem load_selected_failure (requests : Requests) (self : ApiClient.t)
    (selected_id : string) (e : exn) :
  Fetch.result_fails requests
    (base_url self ++ "/api/files/" ++ selected_id) e ->
  is_RequestException (exn_class e) = true ->
  load_selected requests self selected_id = Ok not_found /\
  show not_found = Ok (KnownFailure Generic).
Proof.
  intros Hfail Hreq. unfold load_selected.
  rewrite (get_file_result_failure_none requests self selected_id e Hfail Hreq).
  split; reflexivity.
Qed.

Lemma load_selected_failure_witness :
  load_selected not_found_requests ApiClient.default "non-existent-id"
  = Ok not_found /\
  show not_found = Ok (KnownFailure Generic).
Proof.
  apply (load_selected_failure not_found_requests ApiClient.default
           "non-existent-id" (mk_exn requests_HTTPError "404 Not Found")).
  - apply Fetch.result_get_fails.
    apply (Fetch.get_status_raises _ _
             (mk_Response (Raise (mk_exn requests_HTTPError "404 Not Found"))
                (Ok VNone) "")); reflexivity.
  - reflexivity.
Defined.



(** The original file is offered for saving exactly when the request
    and the status check succeed and the content is not empty: an empty
    file that was downloaded is reported as a failed download. *)
Theorem download_clicked_saves_iff (requests : Requests) (self : ApiClient.t)
    (file_id : string) (result : dict) (data : string) (file_name : value) :
  download_clicked requests self file_id result
  = Ok (save_file data file_name)
  <-> download_file requests self file_id = Ok (Some data) /\
      data <> "" /\
      file_name = dict_get result "filename" (VStr "document").
Proof.
  unfold download_clicked, bind.
  destruct (download_file requests self file_id) as [[[|c rest]|]|e].
  - split; [discriminate|]. intros [H [Hne _]]. injection H as <-.
    now contradiction Hne.
  - split.
    + intros H. injection H as <- <-. repeat split. discriminate.
    + intros [H [_ ->]]. injection H as <-. reflexivity.
  - split; [discriminate | intros [H _]; discriminate].
  - split; [discriminate | intros [H _]; discriminate].
Qed.

(** A download that succeeds with no content at all. *)
Example download_clicked_empty_file :
  download_file (serving "") ApiClient.default "f1" = Ok (Some "") /\
  download_clicked (serving "") ApiClient.default "f1"
    [("fileId", VStr "f1"); ("filename", VStr "empty.txt")]
  = Ok download_failed.
Proof. split; reflexivity. Qed.

End SessionFacts.

(** ** Grouping entities of any type *)

Section GroupingAnyType.
Import Py ResultsDisplay Kinds MoreScenarios.

(** The members of all groups, in the order of the groups. *)
Lemma add_entity_members (k : value) (entity : dict) (gs : groups) :
  Permutation (List.concat (map snd (add_entity k entity gs)))
              (entity :: List.concat (map snd gs)).
Proof.
  induction gs as [|[k' members] gs IH]; [reflexivity|].
  cbn [add_entity]. destruct (key_eqb k' k); cbn [map snd List.concat].
  - rewrite <- app_assoc. cbn [app].
    symmetry. apply Permutation_middle.
  - rewrite IH. symmetry. apply Permutation_middle.
Qed.

Lemma add_entity_nonempty (k : value) (entity : dict) (gs : groups) :
  Forall (fun g => snd g <> []) gs ->
  Forall (fun g => snd g <> []) (add_entity k entity gs).
Proof.
  induction 1 as [|[k' members] gs Hne Hgs IH]; cbn [add_entity].
  - constructor; [discriminate | constructor].
  - destruct (key_eqb k' k); constructor; try assumption.
    cbn [snd]. intros H. apply app_eq_nil in H. destruct H; discriminate.
Qed.

Lemma group_loop_members (entities : list dict) (acc : groups) :
  forallb (fun entity => hashable (entity_type entity)) entities = true ->
  Forall (fun g => snd g <> []) acc ->
  exists gs,
    group_loop entities acc = Ok gs /\
    Permutation (List.concat (map snd gs)) (List.concat (map snd acc) ++ entities)%list /\
    Forall (fun g => snd g <> []) gs.
Proof.
  revert acc. induction entities as [|entity rest IH]; intros acc Hh Hne.
  - exists acc. rewrite app_nil_r. auto.
  - cbn [forallb] in Hh. apply andb_true_iff in Hh. destruct Hh as [Hh Hrest].
    cbn [group_loop]. rewrite Hh.
    destruct (IH (add_entity (entity_type entity) entity acc) Hrest
                (add_entity_nonempty _ _ _ Hne)) as [gs [Hgs [Hperm Hall]]].
    exists gs. split; [exact Hgs|]. split; [|exact Hall].
    rewrite Hperm, add_entity_members.
    cbn [app]. apply Permutation_middle.
Qed.

(** The dictionary that the loop of lines 32 to 37 builds, whatever
    the types, as long as each can be a dictionary key (anything but a
    list or an object): no list in it is empty, the lists taken together
    hold every entity exactly once, and their lengths add up to the
    number of entities. *)
Theorem group_entities_members (entities : list dict) :
  forallb (fun entity => hashable (entity_type entity)) entities = true ->
  exists gs,
    group_entities entities = Ok gs /\
    Permutation (List.concat (map snd gs)) entities /\
    Forall (fun g => snd g <> []) gs /\
    list_sum (map (fun g => List.length (snd g)) gs) = List.length entities.
Proof.
  intros Hh.
  destruct (group_loop_members entities [] Hh (Forall_nil _))
    as [gs [Hgs [Hperm Hne]]].
  cbn [map List.concat app] in Hperm.
  exists gs. repeat split; try assumption.
  rewrite <- (Permutation_length Hperm).
  clear. induction gs as [|[k members] gs IH]; [reflexivity|].
  simpl. rewrite length_app. f_equal. exact IH.
Qed.

Lemma group_entities_members_witness :
  exists gs,
    group_entities mixed_types = Ok gs /\
    Permutation (List.concat (map snd gs)) mixed_types /\
    Forall (fun g => snd g <> []) gs /\
    list_sum (map (fun g => List.length (snd g)) gs)
    = List.length mixed_types.
Proof.
  apply (group_entities_members mixed_types). reflexivity.
Defined.

(** The integer 1 and the float 1.0 are one dictionary key: their
    entities share the group of the key seen first. *)
Example group_entities_mixed_types :
  group_entities mixed_types =
  Ok [(VStr "date", [[("type", VStr "date"); ("value", VStr "a")];
                     [("type", VStr "date"); ("value", VStr "e")]]);
      (VInt 1, [[("type", VInt 1); ("value", VStr "b")];
                [("type", VFloat 1); ("value", VStr "d")]]);
      (VNone, [[("type", VNone); ("value", VStr "c")]])].
Proof. reflexivity. Qed.

Lemma group_loop_raises (entities : list dict) (acc : groups) (e : exn) :
  group_loop entities acc = Raise e ->
  exn_class e = TypeError /\
  exists entity, In entity entities /\ hashable (entity_type entity) = false.
Proof.
  revert acc. induction entities as [|entity rest IH]; intros acc;
    cbn [group_loop]; [discriminate|].
  destruct (hashable (entity_type entity)) eqn:Hh.
  - intros H. destruct (IH _ H) as [Hc [en [Hin Hen]]].
    split; [exact Hc|]. exists en. split; [now right | exact Hen].
  - intros H. injection H as <-. split; [reflexivity|].
    exists entity. split; [now left | exact Hh].
Qed.

(** The grouping raises exactly when some entity has a list or an
    object as its type, and what it raises is a [TypeError]. *)
Theorem group_entities_raises_iff (entities : list dict) :
  (exists e, group_entities entities = Raise e /\ exn_class e = TypeError)
  <-> exists entity,
        In entity entities /\ hashable (entity_type entity) = false.
Proof.
  split.
  - intros [e [H _]]. now apply group_loop_raises in H.
  - intros [entity [Hin Hh]].
    destruct (group_entities entities) as [gs|e] eqn:E.
    + exfalso.
      destruct (forallb (fun en => hashable (entity_type en)) entities)
        eqn:Hall.
      * rewrite forallb_forall in Hall. rewrite (Hall _ Hin) in Hh.
        discriminate.
      * clear Hin Hh entity. unfold group_entities in E.
        revert E Hall. generalize (@nil (value * list dict)).
        induction entities as [|en rest IH]; intros acc;
          cbn [group_loop forallb]; [discriminate|].
        destruct (hashable (entity_type en)); [|discriminate].
        cbn [andb]. apply IH.
    + exists e. split; [reflexivity|].
      now apply group_loop_raises in E.
Qed.

End GroupingAnyType.

(** ** The confidence marker on other kinds of confidence *)

Section SeverityEdges.
Import Py ResultsDisplay Kinds MoreScenarios.

(** An integer confidence is never medium: it is high from 1 on and low
    otherwise; a missing confidence counts as the integer 0. *)
Theorem confidence_color_int (entity : dict) (z : Z) :
  dict_get entity "confidence" (VInt 0) = VInt z ->
  confidence_color entity = Ok (if (1 <=? z)%Z then high else low).
Proof.
  intros Hc. unfold confidence_color. rewrite Hc. cbn [gt_float bind].
  destruct (int_gt_thresholds z) as [H8 H5]. rewrite H8, H5.
  destruct (1 <=? z)%Z; reflexivity.
Qed.

Lemma confidence_color_int_witness :
  confidence_color [("type", VStr "amount"); ("value", VStr "$100")]
  = Ok low.
Proof.
  apply (confidence_color_int
           [("type", VStr "amount"); ("value", VStr "$100")] 0).
  reflexivity.
Defined.

(** The marker raises exactly when the confidence is not a number
    ([None], a string, a list or an object), and what it raises is a
    [TypeError]. *)
Theorem confidence_color_raises_iff (entity : dict) :
  (exists e, confidence_color entity = Raise e /\ exn_class e = TypeError)
  <-> is_number (dict_get entity "confidence" (VInt 0)) = false.
Proof.
  unfold confidence_color.
  destruct (dict_get entity "confidence" (VInt 0)); cbn [gt_float bind is_number].
  1, 5, 6, 7: split; [reflexivity | intros _; eexists; split; reflexivity].
  all: split; [|discriminate]; intros [e [H _]]; exfalso; revert H;
    repeat match goal with
           | |- context [if ?b then _ else _] => destruct b
           end; discriminate.
Qed.

End SeverityEdges.

(** ** The tables: download button and names *)

Section TableButtons.
Import Py ResultsDisplay Kinds.

Variable frame : Type.
Variable DataFrame : value -> value -> res frame.
Variable to_csv : frame -> string.

(** The download button is on the page exactly when headers and rows
    are both non-empty, the frame constructor accepts them and the name of
    the table is text. *)
Theorem download_button_iff (i : nat) (table : dict) :
  existsb is_download_button (display_table frame DataFrame to_csv i table)
  = true
  <-> truthy (dict_get table "headers" (VList [])) = true /\
      truthy (dict_get table "rows" (VList [])) = true /\
      (exists df, DataFrame (dict_get table "rows" (VList []))
                            (dict_get table "headers" (VList [])) = Ok df) /\
      is_str (dict_get table "table_name"
                (VStr ("Table " ++ str_of_nat (i + 1)))) = true.
Proof.
  unfold display_table.
  destruct (truthy (dict_get table "headers" (VList []))); cbn [andb].
  2: { split; [discriminate | intros [H _]; discriminate]. }
  destruct (truthy (dict_get table "rows" (VList []))).
  2: { split; [discriminate | intros [_ [H _]]; discriminate]. }
  destruct (DataFrame _ _) as [df|e].
  2: { split; [discriminate | intros [_ [_ [[df H] _]]]; discriminate]. }
  destruct (dict_get table "table_name" _); cbn;
    split; try discriminate; try (intros [_ [_ [_ H]]]; discriminate).
  - intros _. repeat split. now exists df.
  - reflexivity.
Qed.

(** A value that is not text was not the text default: it is in the
    dictionary, whatever the default. *)
Lemma dict_get_not_default (d : dict) (key text : string) (other : value) :
  is_str (dict_get d key (VStr text)) = false ->
  dict_get d key (VStr text) = dict_get d key other.
Proof.
  induction d as [|[k v] d IH]; cbn [dict_get].
  - discriminate.
  - destruct (String.eqb k key); [reflexivity | exact IH].
Qed.

(** When the frame is built and the name of the table is not text (a
    [null] name, a number), the frame stays on the page, no download
    button is made, and the error is followed by the raw table. *)
Theorem display_table_name_not_text (i : nat) (table : dict) (df : frame) :
  truthy (dict_get table "headers" (VList [])) = true ->
  truthy (dict_get table "rows" (VList [])) = true ->
  DataFrame (dict_get table "rows" (VList []))
            (dict_get table "headers" (VList [])) = Ok df ->
  is_str (dict_get table "table_name"
            (VStr ("Table " ++ str_of_nat (i + 1)))) = false ->
  display_table frame DataFrame to_csv i table
  = [st_dataframe df;
     st_error ("Error displaying table: '"
                 ++ type_name (dict_get table "table_name" VNone)
                 ++ "' object has no attribute 'lower'");
     st_json (VDict table)].
Proof.
  intros Hh Hr Hdf Hname. unfold display_table. rewrite Hh, Hr, Hdf.
  cbn [andb].
  pose proof (dict_get_not_default table "table_name" _ VNone Hname) as Hsame.
  rewrite Hsame in *.
  destruct (dict_get table "table_name" VNone); try discriminate; reflexivity.
Qed.

(** Digits are left alone by [lower] and by the replacement of spaces. *)
Lemma file_name_of_number (n : nat) :
  replace_char " " "_" (lower (str_of_nat n)) = str_of_nat n.
Proof.
  unfold str_of_nat. generalize (Nat.to_uint n). intros d.
  induction d as [|d IH|d IH|d IH|d IH|d IH|d IH|d IH|d IH|d IH|d IH];
    [reflexivity | ..];
    cbn [NilEmpty.string_of_uint lower replace_char];
    rewrite IH; reflexivity.
Qed.

Lemma lower_append (a b : string) : lower (a ++ b) = lower a ++ lower b.
Proof.
  induction a as [|c a IH]; cbn [append lower];
    [reflexivity | now rewrite IH].
Qed.

Lemma replace_char_append (x y : ascii) (a b : string) :
  replace_char x y (a ++ b) = replace_char x y a ++ replace_char x y b.
Proof.
  induction a as [|c a IH]; cbn [append replace_char];
    [reflexivity | now rewrite IH].
Qed.

(** A table without a name is named after its 1-based position: the
    table at index [i] gets the button "Download Table i+1 as CSV" and the
    file name "table_(i+1).csv". *)
Theorem display_table_default_name (i : nat) (table : dict) (df : frame) :
  dict_has table "table_name" = false ->
  truthy (dict_get table "headers" (VList [])) = true ->
  truthy (dict_get table "rows" (VList [])) = true ->
  DataFrame (dict_get table "rows" (VList []))
            (dict_get table "headers" (VList [])) = Ok df ->
  display_table frame DataFrame to_csv i table
  = [st_dataframe df;
     st_download_button
       ("📥 Download Table " ++ str_of_nat (i + 1) ++ " as CSV")
       (to_csv df)
       ("table_" ++ str_of_nat (i + 1) ++ ".csv")
       "text/csv"].
Proof.
  intros Habs Hh Hr Hdf. unfold display_table.
  rewrite Hh, Hr, Hdf, (dict_get_absent _ _ _ Habs).
  cbn [andb download_button].
  rewrite lower_append, replace_char_append, file_name_of_number.
  reflexivity.
Qed.

(** The tables are shown one by one in their order, the table at
    index [n] being displayed as table number [n]: none is dropped, none
    is added. *)
Theorem display_tables_nth (tables : list dict) (n : nat) :
  nth_error (display_tables frame DataFrame to_csv tables) n
  = option_map (display_table frame DataFrame to_csv n) (nth_error tables n).
Proof.
  unfold display_tables.
  assert (H : forall i,
             nth_error (display_tables_from frame DataFrame to_csv i tables) n
             = option_map (display_table frame DataFrame to_csv (i + n))
                 (nth_error tables n)).
  { revert n. induction tables as [|t tables IH]; intros n i.
    - destruct n; reflexivity.
    - destruct n as [|n]; cbn [display_tables_from nth_error].
      + now rewrite Nat.add_0_r.
      + rewrite IH. now rewrite Nat.add_succ_comm. }
  apply (H 0%nat).
Qed.

End TableButtons.

Section TableButtonScenarios.
Import Py ResultsDisplay Kinds MoreScenarios.

Lemma display_table_name_not_text_witness :
  display_table Pandas.frame Pandas.DataFrame Pandas.to_csv 0 null_name_table
  = [st_dataframe (Pandas.mk_frame ["A"] [["1"]]);
     st_error ("Error displaying table: '"
                 ++ type_name (dict_get null_name_table "table_name" VNone)
                 ++ "' object has no attribute 'lower'");
     st_json (VDict null_name_table)].
Proof.
  apply (display_table_name_not_text Pandas.frame Pandas.DataFrame
           Pandas.to_csv 0 null_name_table (Pandas.mk_frame ["A"] [["1"]]));
    reflexivity.
Defined.

Lemma display_table_default_name_witness :
  display_table Pandas.frame Pandas.DataFrame Pandas.to_csv 2 unnamed_table
  = [st_dataframe (Pandas.mk_frame ["A"] [["1"]]);
     st_download_button
       ("📥 Download Table " ++ str_of_nat (2 + 1) ++ " as CSV")
       (Pandas.to_csv (Pandas.mk_frame ["A"] [["1"]]))
       ("table_" ++ str_of_nat (2 + 1) ++ ".csv")
       "text/csv"].
Proof.
  apply (display_table_default_name Pandas.frame Pandas.DataFrame
           Pandas.to_csv 2 unnamed_table (Pandas.mk_frame ["A"] [["1"]]));
    reflexivity.
Defined.

(** The third unnamed table is saved as "table_3.csv". *)
Example display_table_third_unnamed :
  display_table Pandas.frame Pandas.DataFrame Pandas.to_csv 2 unnamed_table
  = [st_dataframe (Pandas.mk_frame ["A"] [["1"]]);
     st_download_button "📥 Download Table 3 as CSV"
       (String "A" (String Pandas.LF (String "1" (String Pandas.LF ""))))
       "table_3.csv" "text/csv"].
Proof. reflexivity. Qed.

End TableButtonScenarios.

(** ** The name of the CSV file and the patterns of [display_error] *)

Section NamesAndPatterns.
Import Py ResultsDisplay Kinds.

Lemma file_name_char (c : ascii) :
  lower_ascii (if Ascii.eqb (lower_ascii c) " " then "_"%char
               else lower_ascii c)
  = (if Ascii.eqb (lower_ascii c) " " then "_"%char else lower_ascii c)
  /\ (if Ascii.eqb (lower_ascii c) " " then "_"%char else lower_ascii c)
     <> " "%char.
Proof.
  destruct c as [[] [] [] [] [] [] [] []]; split; (reflexivity || discriminate).
Qed.

Lemma file_name_stem (s : string) :
  String.length (replace_char " " "_" (lower s)) = String.length s /\
  str_contains " " (replace_char " " "_" (lower s)) = false /\
  lower (replace_char " " "_" (lower s)) = replace_char " " "_" (lower s).
Proof.
  induction s as [|c s [IHlen [IHsp IHlow]]]; [repeat split|].
  cbn [lower replace_char String.length str_contains].
  destruct (file_name_char c) as [Hlow Hsp].
  repeat split.
  - now rewrite IHlen.
  - rewrite IHsp, orb_false_r. cbn [String.prefix].
    destruct (Ascii.ascii_dec " " _) as [Heq|Hne]; [|reflexivity].
    symmetry in Heq. contradiction.
  - cbn [lower]. now rewrite Hlow, IHlow.
Qed.

(** For a table whose name is ASCII text, on which [str.lower] lowers
    the letters A to Z and nothing else, the suggested file name is a stem
    as long as the name, with no space and no upper-case letter in it,
    followed by ".csv". *)
Theorem download_button_file_name {frame : Type} (name data : string) :
  Shapes.ascii_text name = true ->
  exists stem,
    download_button frame (VStr name) data
    = Ok (st_download_button ("📥 Download " ++ name ++ " as CSV") data
            (stem ++ ".csv") "text/csv") /\
    Shapes.ascii_text stem = true /\
    String.length stem = String.length name /\
    str_contains " " stem = false /\
    lower stem = stem.
Proof.
  intros Hascii. exists (replace_char " " "_" (lower name)).
  split; [reflexivity|]. split; [|apply file_name_stem].
  induction name as [|c name IH]; [reflexivity|].
  cbn [Shapes.ascii_text] in Hascii. apply andb_true_iff in Hascii.
  destruct Hascii as [Hc Hrest].
  cbn [lower replace_char Shapes.ascii_text]. rewrite (IH Hrest), andb_true_r.
  revert Hc. clear.
  destruct c as [[] [] [] [] [] [] [] []]; intros H;
    (reflexivity || discriminate H).
Qed.

Lemma download_button_file_name_witness :
  exists stem,
    download_button Pandas.frame (VStr "Line Items 2024") "A,B"
    = Ok (st_download_button ("📥 Download " ++ "Line Items 2024" ++ " as CSV")
            "A,B" (stem ++ ".csv") "text/csv") /\
    Shapes.ascii_text stem = true /\
    String.length stem = String.length "Line Items 2024" /\
    str_contains " " stem = false /\
    lower stem = stem.
Proof.
  apply (download_button_file_name "Line Items 2024" "A,B"). reflexivity.
Defined.

(** The file name of the table "Line Items 2024". *)
Example download_button_line_items :
  download_button Pandas.frame (VStr "Line Items 2024") "A,B"
  = Ok (st_download_button "📥 Download Line Items 2024 as CSV" "A,B"
          "line_items_2024.csv" "text/csv").
Proof. reflexivity. Qed.

(** The general tips are shown for a text message exactly when it holds
    none of the six patterns. *)
Theorem display_error_generic_iff (msg : string) :
  display_error (VStr msg) = Ok Generic
  <-> forall p,
        In p ["API configuration"; "categorize"; "extract"; "timeout";
              "busy"; "wait"] ->
        str_contains p msg = false.
Proof.
  rewrite display_error_str. split.
  - intros H p Hp. simpl in Hp. revert H.
    destruct (str_contains "API configuration" msg) eqn:E1; [discriminate|].
    destruct (str_contains "categorize" msg) eqn:E2; [discriminate|].
    destruct (str_contains "extract" msg) eqn:E3; [discriminate|].
    destruct (str_contains "timeout" msg) eqn:E4; [discriminate|].
    destruct (str_contains "busy" msg) eqn:E5; [discriminate|].
    destruct (str_contains "wait" msg) eqn:E6; [discriminate|].
    intros _.
    destruct Hp as [<-|[<-|[<-|[<-|[<-|[<-|[]]]]]]]; assumption.
  - intros H.
    rewrite (H "API configuration"), (H "categorize"), (H "extract"),
      (H "timeout"), (H "busy"), (H "wait") by (simpl; tauto).
    reflexivity.
Qed.

(** A message that holds "API configuration" gets the configuration
    tips whatever else it holds. *)
Theorem display_error_api_configuration (msg : string) :
  str_contains "API configuration" msg = true ->
  display_error (VStr msg) = Ok ApiConfiguration.
Proof.
  intros H. rewrite display_error_str, H. reflexivity.
Qed.

Lemma display_error_api_configuration_witness :
  display_error
    (VStr "API configuration error: timeout, please wait and retry")
  = Ok ApiConfiguration.
Proof.
  apply display_error_api_configuration. reflexivity.
Defined.

End NamesAndPatterns.
